(** * gofp: Option, Result, Either, Reader, State and Writer

  A shallow embedding of the Go packages [gofp], [gofp/reader],
  [gofp/state] and [gofp/writer], followed by the properties of their
  combinators.

  Conventions of the embedding.
    - A Go struct is a record with the fields of the struct; a field the
      source leaves out of a composite literal holds the zero value of its
      type, which the class [Zero] supplies.
    - A Go function value handed to a combinator (a callback, or a function
      carried inside a container) is a Rocq function: pure, total, never
      [nil].  The zero value of a function type is therefore left abstract;
      the code stores it (for instance in the [right] field of a [Left]) but
      never calls it on a value it built itself.
    - A slice is a list and [append(vs, v)] is [vs ++ [v]]; the nil slice and
      the empty slice are both [[]].
    - [int] is [Z]; no property below depends on overflow.
    - A call of [panic] is the [Panicked] case of [outcome]; code that cannot
      panic has a plain result type.
    - The call stack that [runtime.Callers] inspects is an explicit argument
      of every function that may capture it. *)

From Stdlib Require Import ZArith List String Ascii Bool Lia DecimalString.
Import ListNotations.

Set Implicit Arguments.

(** ** The part of the Go language and runtime the packages rely on *)

Module golang.

(** The zero value of a type: what [var zero T] holds. *)
Class Zero (T : Type) : Type := { zero : T }.

#[global] Hint Mode Zero ! : typeclass_instances.

#[global] Instance Zero_int : Zero Z := {| zero := 0%Z |}.
#[global] Instance Zero_bool : Zero bool := {| zero := false |}.
#[global] Instance Zero_string : Zero string := {| zero := EmptyString |}.
#[global] Instance Zero_slice (T : Type) : Zero (list T) := {| zero := [] |}.

(** The builtin interface [error]: the nil interface value, an error made
    by [errors.New], or one made by [fmt.Errorf] with a [%w] operand. *)
Inductive error : Type :=
  | nilError
  | errorString (s : string)
  | wrapError (msg : string) (err : error).

#[global] Instance Zero_error : Zero error := {| zero := nilError |}.

(** What a call of [panic] carries. *)
Inductive panicValue : Type :=
  | panicString (s : string)
  | panicError (e : error)
  | nilDereference.

(** A call either returns or panics. *)
Inductive outcome (A : Type) : Type :=
  | Returned (a : A)
  | Panicked (p : panicValue).

Arguments Returned {A} a.
Arguments Panicked {A} p.

Definition bind {A B : Type} (c : outcome A) (k : A -> outcome B) : outcome B :=
  match c with
  | Returned a => k a
  | Panicked p => Panicked p
  end.

(** The method [Error()]; on the nil interface the call is a nil
    dereference. *)
Definition Error (e : error) : outcome string :=
  match e with
  | nilError => Panicked nilDereference
  | errorString s => Returned s
  | wrapError msg _ => Returned msg
  end.

(** [errors.Unwrap]: the operand of [%w] inside an error built by
    [fmt.Errorf]; other errors wrap nothing. *)
Definition errorsUnwrap (e : error) : error :=
  match e with
  | wrapError _ inner => inner
  | _ => nilError
  end.

Definition newline : string := String (ascii_of_nat 10) EmptyString.

(** [%d] of a Go int. *)
Definition itoa (n : Z) : string := NilZero.string_of_int (Z.to_int n).

End golang.

Module fmt.
Import golang.

(** [fmt.Errorf("%s: %w", msg, err)].  With an error operand the result
    wraps it and reads [msg: ] followed by the operand's text.  With a nil
    operand [%w] prints as a bad verb and nothing is wrapped, so the result
    is a plain [errors.New]. *)
Definition Errorf_s_w (msg : string) (err : error) : error :=
  match Error err with
  | Returned text => wrapError (msg ++ ": " ++ text) err
  | Panicked _ => errorString (msg ++ ": %!w(<nil>)")
  end.

End fmt.

Module runtime.
Import golang.

(** One entry of [runtime.CallersFrames]. *)
Record Frame : Type := mkFrame {
  File : string;
  Line : Z;
  Function : string
}.

(** The call stack at a call of [runtime.Callers], innermost frame first:
    entry 0 is [runtime.Callers] itself, entry 1 its caller, and so on. *)
Definition CallStack : Type := list Frame.

(** [runtime.Callers(skip, pc)] with [len(pc) = n]: the frames recorded in
    [pc[:n']], where [n'] is the returned count. *)
Definition Callers (skip n : nat) (stk : CallStack) : list Frame :=
  firstn n (skipn skip stk).

End runtime.

(** ** Package gofp *)

Module gofp.
Import golang.

(** gofp.go *)
Inductive Unit : Type := UnitValue.

#[global] Instance Zero_Unit : Zero Unit := {| zero := UnitValue |}.

(** *** option.go *)
Module option.

Record Option (T : Type) : Type := mkOption {
  value : T;
  valid : bool
}.

Arguments mkOption {T} value valid.

Section Constructors.
Context {T : Type}.

Definition Some (value : T) : Option T :=
  {| value := value; valid := true |}.

Definition None `{Zero T} : Option T :=
  {| value := zero; valid := false |}.
End Constructors.

#[global] Instance Zero_Option (T : Type) `{Zero T} : Zero (Option T) :=
  {| zero := {| value := zero; valid := false |} |}.

Section Functions.
Context {T U R : Type} `{Zero T} `{Zero U}.

Definition OptionMap (o : Option T) (fn : T -> U) : Option U :=
  if negb (valid o) then None else Some (fn (value o)).

Definition OptionApply (o : Option T) (fn : Option (T -> U)) : Option U :=
  if negb (valid o) || negb (valid fn) then None
  else Some (value fn (value o)).

Definition OptionFlatMap (o : Option T) (fn : T -> Option U) : Option U :=
  if negb (valid o) then None else fn (value o).

Definition OptionFold (o : Option T) (none : unit -> R) (some : T -> R) : R :=
  if negb (valid o) then none tt else some (value o).
End Functions.

Section Methods.
Context {T : Type} `{Zero T}.

(** One turn of the loop of [OptionSequence]. *)
Definition OptionSequence_step (values : Option (list T)) (o : Option T)
  : Option (list T) :=
  OptionFlatMap values (fun vs => OptionMap o (fun v => vs ++ [v])).

Definition OptionSequence (options : list (Option T)) : Option (list T) :=
  fold_left OptionSequence_step options (Some []).

Definition Map (o : Option T) (fn : T -> T) : Option T := OptionMap o fn.

Definition FlatMap (o : Option T) (fn : T -> Option T) : Option T :=
  OptionFlatMap o fn.

Definition IsSome (o : Option T) : bool := valid o.

Definition IsNone (o : Option T) : bool := negb (valid o).

Definition TryUnwrap (o : Option T) : T * bool :=
  if negb (valid o) then (zero, false) else (value o, true).

Definition Unwrap (o : Option T) : outcome T :=
  if negb (valid o) then Panicked (panicString "unwrapping None")
  else Returned (value o).

Definition UnwrapOr (o : Option T) (defaultValue : T) : T :=
  if negb (valid o) then defaultValue else value o.

Definition UnwrapOrElse (o : Option T) (fn : unit -> T) : T :=
  if negb (valid o) then fn tt else value o.

Definition And (o opt : Option T) : Option T :=
  if negb (valid o) then None else opt.

Definition AndThen (o : Option T) (fn : T -> Option T) : Option T :=
  if negb (valid o) then None else fn (value o).

Definition Or (o opt : Option T) : Option T :=
  if valid o then o else opt.

Definition OrElse (o : Option T) (fn : unit -> Option T) : Option T :=
  if valid o then o else fn tt.

Definition Filter (o : Option T) (fn : T -> bool) : Option T :=
  if negb (valid o) || negb (fn (value o)) then None else o.
End Methods.

(** The JSON methods.  [encoding/json] is outside the package: [json.Marshal]
    and [json.Unmarshal] are parameters.  A [[]byte] is a string of bytes and
    the nil slice is the empty string.  [json_Unmarshal data value] is the
    call [json.Unmarshal(data, &value)]: it returns what [value] holds
    afterwards together with the error.  A method with a pointer receiver
    takes the Option the pointer refers to and returns what it refers to
    afterwards. *)
Section JSON.
Context {T : Type} `{Zero T}.
Variable json_Marshal : T -> string * error.
Variable json_Unmarshal : string -> T -> T * error.





End JSON.

End option.

(** *** result.go *)
Module result.
Import runtime.

(** Maximum number of stack frames captured for the stack trace. *)
Definition pcCount : nat := 30.

(** Number of innermost frames left out of the stack trace. *)
Definition pcSkip : nat := 3.

Record Result (T : Type) : Type := mkResult {
  value : T;
  err : error;
  isErr : bool;
  stack : string
}.

Arguments mkResult {T} value err isErr stack.

(** [fmt.Fprintf(&sb, "%s:%d %s\n", frame.File, frame.Line, frame.Function)] *)
Definition frameLine (frame : Frame) : string :=
  (File frame ++ ":" ++ itoa (Line frame) ++ " " ++ Function frame ++ newline)%string.

(** The loop of [callers]: [frame] is what [frames.Next()] returned and
    [rest] what it has still to return ([more] is [rest <> []]). *)
Fixpoint callers_loop (frame : Frame) (rest : list Frame) : string :=
  (frameLine frame ++
   if String.eqb (Function frame) "main.main" then ""
   else match rest with
        | [] => ""
        | next :: rest' => callers_loop next rest'
        end)%string.

Definition callers (stk : CallStack) : string :=
  match Callers pcSkip pcCount stk with
  | [] => EmptyString
  | frame :: rest => callers_loop frame rest
  end.

Section Constructors.
Context {T : Type} `{Zero T}.

Definition Ok (value : T) : Result T :=
  {| value := value; err := zero; isErr := zero; stack := zero |}.

Definition Err (stk : CallStack) (err : error) : Result T :=
  {| value := zero; err := err; isErr := true; stack := callers stk |}.

(** [err != nil] *)
Definition notNil (err : error) : bool :=
  match err with
  | nilError => false
  | _ => true
  end.

Definition FromReturn (stk : CallStack) (v : T) (err : error) : Result T :=
  let stack := if notNil err then callers stk else EmptyString in
  {| value := v; err := err; isErr := notNil err; stack := stack |}.
End Constructors.

Section Functions.
Context {T U R : Type} `{Zero T} `{Zero U}.

Definition ResultMap (r : Result T) (fn : T -> U) : Result U :=
  if isErr r then {| value := zero; err := err r; isErr := true; stack := stack r |}
  else Ok (fn (value r)).

Definition ResultApply (r : Result T) (fn : Result (T -> U)) : Result U :=
  if isErr r then {| value := zero; err := err r; isErr := true; stack := stack r |}
  else if isErr fn then {| value := zero; err := err fn; isErr := true; stack := stack fn |}
  else Ok (value fn (value r)).

Definition ResultFlatMap (r : Result T) (fn : T -> Result U) : Result U :=
  if isErr r then {| value := zero; err := err r; isErr := true; stack := stack r |}
  else fn (value r).

Definition ResultFold (r : Result T) (errFn : error -> R) (okFn : T -> R) : R :=
  if isErr r then errFn (err r) else okFn (value r).
End Functions.

Section Methods.
Context {T : Type} `{Zero T}.

(** One turn of the loop of [ResultSequence]. *)
Definition ResultSequence_step (values : Result (list T)) (r : Result T)
  : Result (list T) :=
  ResultFlatMap values (fun vs => ResultMap r (fun v => vs ++ [v])).

Definition ResultSequence (results : list (Result T)) : Result (list T) :=
  fold_left ResultSequence_step results (Ok []).

Definition Map (r : Result T) (fn : T -> T) : Result T := ResultMap r fn.

Definition FlatMap (r : Result T) (fn : T -> Result T) : Result T :=
  ResultFlatMap r fn.

Definition IsOk (r : Result T) : bool := negb (isErr r).

Definition IsErr (r : Result T) : bool := isErr r.

Definition TryUnwrap (r : Result T) : T * bool :=
  if isErr r then (zero, false) else (value r, true).

Definition Unwrap (r : Result T) : outcome T :=
  if isErr r then Panicked (panicError (err r)) else Returned (value r).

Definition UnwrapOr (r : Result T) (defaultValue : T) : T :=
  if isErr r then defaultValue else value r.

Definition UnwrapOrElse (r : Result T) (fn : unit -> T) : T :=
  if isErr r then fn tt else value r.

Definition UnwrapErr (r : Result T) : outcome error :=
  if negb (isErr r) then Panicked (panicString "unwrapping Ok")
  else Returned (err r).

Definition And (r res : Result T) : Result T :=
  if isErr r then r else res.

Definition AndThen (r : Result T) (fn : T -> Result T) : Result T :=
  if isErr r then r else fn (value r).

Definition Or (r res : Result T) : Result T :=
  if negb (isErr r) then r else res.

Definition OrElse (r : Result T) (fn : error -> Result T) : Result T :=
  if negb (isErr r) then r else fn (err r).

Definition Ensure (stk : CallStack) (r : Result T) (err : error) (pred : T -> bool)
  : Result T :=
  if isErr r then r
  else if negb (pred (value r)) then Err stk err
  else r.

Definition EnsureWith (stk : CallStack) (r : Result T) (pred : T -> bool)
  (errFn : T -> error) : Result T :=
  if isErr r then r
  else if negb (pred (value r)) then Err stk (errFn (value r))
  else r.

Definition Wrap (r : Result T) (msg : string) : Result T :=
  if negb (isErr r) then r
  else {| value := zero;
          err := fmt.Errorf_s_w msg (err r);
          isErr := true;
          stack := stack r |}.

Definition ToReturn (r : Result T) : T * error := (value r, err r).

Definition Recover (r : Result T) (fn : error -> T) : Result T :=
  if isErr r then Ok (fn (err r)) else r.

Definition RecoverWith (r : Result T) (fn : error -> Result T) : Result T :=
  if isErr r then fn (err r) else r.

Definition StackTrace (r : Result T) : string :=
  if isErr r then stack r else EmptyString.
End Methods.

End result.

(** *** either.go *)
Module either.

Record Either (T U : Type) : Type := mkEither {
  left : T;
  right : U;
  isLeft : bool
}.

Arguments mkEither {T U} left right isLeft.

Section Constructors.
Context {T U : Type} `{Zero T} `{Zero U}.

Definition Left (value : T) : Either T U :=
  {| left := value; right := zero; isLeft := true |}.

Definition Right (value : U) : Either T U :=
  {| left := zero; right := value; isLeft := false |}.
End Constructors.

Definition FromResult {T : Type} `{Zero T} (r : result.Result T)
  : outcome (Either error T) :=
  if result.IsErr r
  then bind (result.UnwrapErr r) (fun e => Returned (Left e))
  else bind (result.Unwrap r) (fun v => Returned (Right v)).

Section Functions.
Context {T U V R : Type} `{Zero T} `{Zero U} `{Zero V} `{Zero (U -> V)}.

Definition EitherMap (e : Either T U) (fn : U -> V) : Either T V :=
  if isLeft e then Left (left e) else Right (fn (right e)).

Definition EitherMapLeft (e : Either T U) (fn : T -> V) : Either V U :=
  if isLeft e then Left (fn (left e)) else Right (right e).

Definition EitherApply (e : Either T U) (efn : Either T (U -> V)) : Either T V :=
  if isLeft efn then Left (left efn)
  else if isLeft e then Left (left e)
  else Right (right efn (right e)).

Definition EitherApplyMap (e : Either T U) (efn : Either T (U -> V))
  (combine : T -> T -> T) : Either T V :=
  if isLeft efn && isLeft e then Left (combine (left efn) (left e))
  else if isLeft efn then Left (left efn)
  else if isLeft e then Left (left e)
  else Right (right efn (right e)).

Definition EitherFlatMap (e : Either T U) (fn : U -> Either T V) : Either T V :=
  if isLeft e then Left (left e) else fn (right e).

Definition EitherFlatMapLeft (e : Either T U) (fn : T -> Either V U) : Either V U :=
  if isLeft e then fn (left e) else Right (right e).

Definition EitherFold (e : Either T U) (left_fn : T -> R) (right_fn : U -> R) : R :=
  if isLeft e then left_fn (left e) else right_fn (right e).
End Functions.

Section Methods.
Context {T U : Type} `{Zero T} `{Zero U}.

(** One turn of the loop of [EitherSequence]. *)
Definition EitherSequence_step (values : Either T (list U)) (e : Either T U)
  : Either T (list U) :=
  EitherFlatMap values (fun vs => EitherMap e (fun v => vs ++ [v])).

Definition EitherSequence (eithers : list (Either T U)) : Either T (list U) :=
  fold_left EitherSequence_step eithers (Right []).

Definition Map (e : Either T U) (fn : U -> U) : Either T U := EitherMap e fn.

Definition MapLeft (e : Either T U) (fn : T -> T) : Either T U := EitherMapLeft e fn.

Definition FlatMap (e : Either T U) (fn : U -> Either T U) : Either T U :=
  EitherFlatMap e fn.

Definition FlatMapLeft (e : Either T U) (fn : T -> Either T U) : Either T U :=
  EitherFlatMapLeft e fn.

Definition IsLeft (e : Either T U) : bool := isLeft e.

Definition IsRight (e : Either T U) : bool := negb (isLeft e).

Definition TryUnwrap (e : Either T U) : U * bool :=
  if isLeft e then (zero, false) else (right e, true).

(** [fmt.Sprintf("Cannot unwrap: Either is Left(%v)", e.left)] prints the left
    value with [%v]; the rendering of a [T] is the parameter [show]. *)
Definition Unwrap (show : T -> string) (e : Either T U) : outcome U :=
  if isLeft e
  then Panicked (panicString ("Cannot unwrap: Either is Left(" ++ show (left e) ++ ")"))
  else Returned (right e).

Definition UnwrapOr (e : Either T U) (defaultValue : U) : U :=
  if isLeft e then defaultValue else right e.

Definition UnwrapOrElse (e : Either T U) (fn : unit -> U) : U :=
  if isLeft e then fn tt else right e.

Definition TryUnwrapLeft (e : Either T U) : T * bool :=
  if negb (isLeft e) then (zero, false) else (left e, true).

Definition UnwrapLeft (show : U -> string) (e : Either T U) : outcome T :=
  if negb (isLeft e)
  then Panicked (panicString ("Cannot unwrap Left: Either is Right(" ++ show (right e) ++ ")"))
  else Returned (left e).

Definition UnwrapLeftOr (e : Either T U) (defaultValue : T) : T :=
  if isLeft e then left e else defaultValue.

Definition UnwrapLeftOrElse (e : Either T U) (fn : unit -> T) : T :=
  if isLeft e then left e else fn tt.

Definition Swap (e : Either T U) : Either U T :=
  if isLeft e then Right (left e) else Left (right e).
End Methods.

End either.

End gofp.

(** ** Package reader *)

Module reader.

Record Reader (E A : Type) : Type := mkReader {
  g : E -> A
}.

Arguments mkReader {E A} g.

Definition Run {E A : Type} (r : Reader E A) (env : E) : A := g r env.

Section Functions.
Context {E A B : Type}.

Definition New (f : E -> A) : Reader E A := {| g := f |}.

Definition Pure (a : A) : Reader E A := New (fun _ => a).

Definition Local (r : Reader E A) (f : E -> E) : Reader E A :=
  New (fun e => Run r (f e)).

Definition Map (r : Reader E A) (f : A -> B) : Reader E B :=
  {| g := fun e => f (g r e) |}.

Definition Apply (r : Reader E A) (f : Reader E (A -> B)) : Reader E B :=
  {| g := fun e => g f e (g r e) |}.

Definition FlatMap (r : Reader E A) (f : A -> Reader E B) : Reader E B :=
  {| g := fun e => g (f (g r e)) e |}.
End Functions.

Definition Ask {E : Type} : Reader E E := New (fun e => e).

(** The methods [Reader.Map] and [Reader.FlatMap] keep the value type. *)
Definition Map_method {E A : Type} (r : Reader E A) (f : A -> A) : Reader E A :=
  Map r f.

Definition FlatMap_method {E A : Type} (r : Reader E A) (f : A -> Reader E A)
  : Reader E A :=
  FlatMap r f.

Definition Zip {E A B U : Type} (ra : Reader E A) (rb : Reader E B) (f : A -> B -> U)
  : Reader E U :=
  FlatMap ra (fun a => Map rb (fun b => f a b)).

End reader.

(** ** Package state *)

Module state.
Import golang.

Record State (S A : Type) : Type := mkState {
  g : S -> A * S
}.

Arguments mkState {S A} g.

Definition Run {S A : Type} (s : State S A) (state : S) : A * S := g s state.

Section Functions.
Context {S A B : Type}.

Definition Pure (a : A) : State S A :=
  {| g := fun s => (a, s) |}.

Definition Gets (f : S -> A) : State S A :=
  {| g := fun s => (f s, s) |}.

Definition Map (s : State S A) (f : A -> B) : State S B :=
  {| g := fun state =>
            let (a, newState) := g s state in
            (f a, newState) |}.

Definition Apply (s : State S A) (f : State S (A -> B)) : State S B :=
  {| g := fun state =>
            let (a, s1) := g s state in
            let (fn, s2) := g f s1 in
            (fn a, s2) |}.

Definition FlatMap (s : State S A) (f : A -> State S B) : State S B :=
  {| g := fun state =>
            let (a, newState) := g s state in
            g (f a) newState |}.
End Functions.

Definition Get {S : Type} : State S S :=
  {| g := fun state => (state, state) |}.

Definition Put {S : Type} (state : S) : State S gofp.Unit :=
  {| g := fun _ => (gofp.UnitValue, state) |}.

Definition Modify {S : Type} (f : S -> S) : State S gofp.Unit :=
  {| g := fun s => (gofp.UnitValue, f s) |}.

Definition Zip {S A B U : Type} (sa : State S A) (sb : State S B) (f : A -> B -> U)
  : State S U :=
  FlatMap sa (fun a => Map sb (fun b => f a b)).

(** One turn of the loop of [Sequence]. *)
Definition Sequence_step {S A : Type} (values : State S (list A)) (s : State S A)
  : State S (list A) :=
  Zip values s (fun vs a => vs ++ [a]).

Definition Sequence {S A : Type} (states : list (State S A)) : State S (list A) :=
  fold_left Sequence_step states (Pure []).

(** The methods [State.Map] and [State.FlatMap] keep the value type. *)
Definition Map_method {S A : Type} (s : State S A) (f : A -> A) : State S A :=
  Map s f.

Definition FlatMap_method {S A : Type} (s : State S A) (f : A -> State S A)
  : State S A :=
  FlatMap s f.

End state.

(** ** Package writer *)

Module writer.
Import golang.

(** The interface [Monoid]: the two methods of an implementation. *)
Record Monoid (A : Type) : Type := mkMonoid {
  Empty : A;
  Append : A -> A -> A
}.

Record Writer (W A : Type) : Type := mkWriter {
  g : unit -> A * W;
  monoid : Monoid W
}.

Arguments mkWriter {W A} g monoid.

Record listen (A W : Type) : Type := mkListen {
  Value : A;
  Log : W
}.

Definition Run {W A : Type} (w : Writer W A) : A * W := g w tt.

Section Functions.
Context {W A B : Type}.

Definition Pure (a : A) (m : Monoid W) : Writer W A :=
  {| g := fun _ => (a, Empty m); monoid := m |}.

Definition Tell `{Zero A} (w : W) (m : Monoid W) : Writer W A :=
  {| g := fun _ => (zero, w); monoid := m |}.

Definition TellWithValue (a : A) (w : W) (m : Monoid W) : Writer W A :=
  {| g := fun _ => (a, w); monoid := m |}.

Definition Listen (w : Writer W A) : Writer W (listen A W) :=
  {| g := fun _ =>
            let (a, log) := Run w in
            ({| Value := a; Log := log |}, log);
     monoid := monoid w |}.

Definition Map (w : Writer W A) (f : A -> B) : Writer W B :=
  {| g := fun _ =>
            let (a, log) := g w tt in
            (f a, log);
     monoid := monoid w |}.

Definition Apply (w : Writer W A) (f : Writer W (A -> B)) : Writer W B :=
  {| g := fun _ =>
            let (a, logA) := Run w in
            let (fn, logF) := Run f in
            (fn a, Append (monoid w) logA logF);
     monoid := monoid w |}.

Definition FlatMap (w : Writer W A) (f : A -> Writer W B) : Writer W B :=
  {| g := fun _ =>
            let (a, w1) := g w tt in
            let wb := f a in
            let (b, w2) := g wb tt in
            (b, Append (monoid w) w1 w2);
     monoid := monoid w |}.
End Functions.

Definition Zip {W A B U : Type} (wa : Writer W A) (wb : Writer W B) (f : A -> B -> U)
  : Writer W U :=
  FlatMap wa (fun a => Map wb (fun b => f a b)).

(** The methods [Writer.Map] and [Writer.FlatMap] keep the value type. *)
Definition Map_method {W A : Type} (w : Writer W A) (f : A -> A) : Writer W A :=
  Map w f.

Definition FlatMap_method {W A : Type} (w : Writer W A) (f : A -> Writer W A)
  : Writer W A :=
  FlatMap w f.

End writer.

(** ** The part of package strings the examples use *)

Module strings.

(** [strings.Contains(s, substr)] *)
Fixpoint Contains (s substr : string) : bool :=
  String.prefix substr s
  || match s with
     | EmptyString => false
     | String _ rest => Contains rest substr
     end.

End strings.

(** ** examples/validation *)

Module validation.
Import golang.
Import gofp.
Import either.

Record User : Type := mkUser {
  Username : string;
  Email : string;
  Age : Z
}.

Record ValidationError : Type := mkValidationError {
  Field : string;
  Message : string
}.

#[global] Instance Zero_User : Zero User :=
  {| zero := {| Username := EmptyString; Email := EmptyString; Age := 0%Z |} |}.

Definition validateUsername (name : string) : Either (list ValidationError) string :=
  if Nat.ltb (String.length name) 3
  then Left [ {| Field := "username"; Message := "must be at least 3 characters" |} ]
  else Right name.

Definition validateEmail (email : string) : Either (list ValidationError) string :=
  if negb (strings.Contains email "@")
  then Left [ {| Field := "email"; Message := "must contain @" |} ]
  else Right email.

Definition validateAge (age : Z) : Either (list ValidationError) Z :=
  if (age <? 18)%Z
  then Left [ {| Field := "age"; Message := "must be at least 18" |} ]
  else Right age.

Definition appendErrors (a b : list ValidationError) : list ValidationError :=
  a ++ b.

(** The zero values of the two function types that the nested applications
    store in a Left are parameters: Go has [nil] there, and nothing calls
    it. *)
Section validateUser.
Context {nil2 : Zero (string -> Z -> User)} {nil1 : Zero (Z -> User)}.
Context {nil3 : Zero (string -> string -> Z -> User)}.

Definition validateUser (u : User) : Either (list ValidationError) User :=
  EitherApplyMap
    (validateAge (Age u))
    (EitherApplyMap
       (validateEmail (Email u))
       (EitherApplyMap
          (validateUsername (Username u))
          (Right (fun username email age =>
                    {| Username := username; Email := email; Age := age |}))
          appendErrors)
       appendErrors)
    appendErrors.
End validateUser.

End validation.

(** The two implementations of [Monoid] that the tests of the package use. *)
Module writer_test.

Definition StringMonoid : writer.Monoid string :=
  {| writer.Empty := EmptyString;
     writer.Append := fun a b => (a ++ b)%string |}.

Definition SliceMonoid (T : Type) : writer.Monoid (list T) :=
  {| writer.Empty := [];
     writer.Append := fun a b => a ++ b |}.

End writer_test.

(** * Vocabulary of the properties *)

Import golang.
Import gofp.

(** ** Values the packages can hand out

    The fields of [Option], [Either] and [Result] are unexported: outside the
    package a value is the zero value of the struct or comes from a
    constructor or a combinator.  For [Option] and [Either] every such value
    keeps the zero value in the field its case does not use. *)

Definition OptionCanonical {T : Type} `{Zero T} (o : option.Option T) : Prop :=
  option.valid o = false -> option.value o = zero.

Definition EitherCanonical {T U : Type} `{Zero T} `{Zero U} (e : either.Either T U)
  : Prop :=
  if either.isLeft e then either.right e = zero else either.left e = zero.

(** A [Result] whose unused fields are zero: a failure holds no value, a
    success holds neither an error nor a stack trace.  [FromReturn(v, err)]
    with a non-nil [err] keeps [v] and is canonical only when [v] is the zero
    value. *)
Definition ResultCanonical {T : Type} `{Zero T} (r : result.Result T) : Prop :=
  if result.isErr r then result.value r = zero
  else result.err r = nilError /\ result.stack r = EmptyString.

(** The invariant of [Result] that the specification states. *)
Definition NoDiagnosticOnSuccess {T : Type} (r : result.Result T) : Prop :=
  result.isErr r = false -> result.stack r = EmptyString.

Definition ErrorOnFailure {T : Type} (r : result.Result T) : Prop :=
  result.isErr r = true -> result.err r <> nilError.

(** The Results reachable through the exported constructors and combinators
    of result.go, when every error handed to [Err], to [Ensure], or returned
    by the [errFn] of [EnsureWith], satisfies [Admissible].  The methods
    [Map] and [FlatMap] are [ResultMap] and [ResultFlatMap] at one type. *)
Inductive Built (Admissible : error -> Prop)
  : forall (T : Type), Zero T -> result.Result T -> Prop :=
| Built_Ok (T : Type) (ZT : Zero T) (v : T) :
    Built Admissible ZT (result.Ok v)
| Built_Err (T : Type) (ZT : Zero T) (stk : runtime.CallStack) (e : error) :
    Admissible e ->
    Built Admissible ZT (result.Err stk e)
| Built_FromReturn (T : Type) (ZT : Zero T) (stk : runtime.CallStack) (v : T) (e : error) :
    Built Admissible ZT (result.FromReturn stk v e)
| Built_ResultMap (T U : Type) (ZT : Zero T) (ZU : Zero U)
    (r : result.Result T) (fn : T -> U) :
    Built Admissible ZT r ->
    Built Admissible ZU (result.ResultMap r fn)
| Built_ResultApply (T U : Type) (ZT : Zero T) (ZU : Zero U) (ZF : Zero (T -> U))
    (r : result.Result T) (fn : result.Result (T -> U)) :
    Built Admissible ZT r ->
    Built Admissible ZF fn ->
    Built Admissible ZU (result.ResultApply r fn)
| Built_ResultFlatMap (T U : Type) (ZT : Zero T) (ZU : Zero U)
    (r : result.Result T) (fn : T -> result.Result U) :
    Built Admissible ZT r ->
    (forall v, Built Admissible ZU (fn v)) ->
    Built Admissible ZU (result.ResultFlatMap r fn)
| Built_ResultSequence (T : Type) (ZT : Zero T) (results : list (result.Result T)) :
    (forall r, In r results -> Built Admissible ZT r) ->
    Built Admissible (Zero_slice T) (result.ResultSequence results)
| Built_And (T : Type) (ZT : Zero T) (r res : result.Result T) :
    Built Admissible ZT r ->
    Built Admissible ZT res ->
    Built Admissible ZT (result.And r res)
| Built_AndThen (T : Type) (ZT : Zero T) (r : result.Result T)
    (fn : T -> result.Result T) :
    Built Admissible ZT r ->
    (forall v, Built Admissible ZT (fn v)) ->
    Built Admissible ZT (result.AndThen r fn)
| Built_Or (T : Type) (ZT : Zero T) (r res : result.Result T) :
    Built Admissible ZT r ->
    Built Admissible ZT res ->
    Built Admissible ZT (result.Or r res)
| Built_OrElse (T : Type) (ZT : Zero T) (r : result.Result T)
    (fn : error -> result.Result T) :
    Built Admissible ZT r ->
    (forall e, Built Admissible ZT (fn e)) ->
    Built Admissible ZT (result.OrElse r fn)
| Built_Ensure (T : Type) (ZT : Zero T) (stk : runtime.CallStack)
    (r : result.Result T) (e : error) (pred : T -> bool) :
    Built Admissible ZT r ->
    Admissible e ->
    Built Admissible ZT (result.Ensure stk r e pred)
| Built_EnsureWith (T : Type) (ZT : Zero T) (stk : runtime.CallStack)
    (r : result.Result T) (pred : T -> bool) (errFn : T -> error) :
    Built Admissible ZT r ->
    (forall v, Admissible (errFn v)) ->
    Built Admissible ZT (result.EnsureWith stk r pred errFn)
| Built_Wrap (T : Type) (ZT : Zero T) (r : result.Result T) (msg : string) :
    Built Admissible ZT r ->
    Built Admissible ZT (result.Wrap r msg)
| Built_Recover (T : Type) (ZT : Zero T) (r : result.Result T) (fn : error -> T) :
    Built Admissible ZT r ->
    Built Admissible ZT (result.Recover r fn)
| Built_RecoverWith (T : Type) (ZT : Zero T) (r : result.Result T)
    (fn : error -> result.Result T) :
    Built Admissible ZT r ->
    (forall e, Built Admissible ZT (fn e)) ->
    Built Admissible ZT (result.RecoverWith r fn).

(** What the induction over [Built] carries: a success has neither an error
    nor a stack trace; a failure has an error, when only non-nil errors were
    admitted. *)
Definition ResultInvariant (Admissible : error -> Prop) {T : Type}
  (r : result.Result T) : Prop :=
  (result.isErr r = false ->
   result.err r = nilError /\ result.stack r = EmptyString)
  /\ ((forall e, Admissible e -> e <> nilError) ->
      result.isErr r = true -> result.err r <> nilError).

(** Every error is admitted / only non-nil errors are. *)
Definition anyError (e : error) : Prop := True.

Definition nonNil (e : error) : Prop := e <> nilError.

(** ** State: threading by hand *)

(** The state threaded through the computations in list order: each runs on
    the state its predecessor left, and the values are collected in the same
    order. *)
Fixpoint threadAll {S A : Type} (states : list (state.State S A)) (s0 : S)
  : list A * S :=
  match states with
  | [] => ([], s0)
  | s :: rest =>
      let (v, s1) := state.Run s s0 in
      let (vs, sn) := threadAll rest s1 in
      (v :: vs, sn)
  end.

(** [s1.FlatMap(_ => s2). ... .FlatMap(_ => sn)] *)
Definition chain {S A : Type} (s1 : state.State S A) (rest : list (state.State S A))
  : state.State S A :=
  fold_left (fun acc s => state.FlatMap_method acc (fun _ => s)) rest s1.

(** ** Writer: the laws assumed of a Monoid *)

Record MonoidLaws {W : Type} (m : writer.Monoid W) : Prop := {
  Append_Empty_l : forall w, writer.Append m (writer.Empty m) w = w;
  Append_Empty_r : forall w, writer.Append m w (writer.Empty m) = w;
  Append_assoc : forall a b c,
    writer.Append m (writer.Append m a b) c
    = writer.Append m a (writer.Append m b c)
}.

(** ** Result: the frames of a stack trace *)

(** The frames up to and including the first one of [main.main]. *)
Fixpoint throughMain (frames : list runtime.Frame) : list runtime.Frame :=
  match frames with
  | [] => []
  | frame :: rest =>
      frame :: (if String.eqb (runtime.Function frame) "main.main" then []
                else throughMain rest)
  end.

(** The lines of a trace, one after the other. *)
Definition joinLines (lines : list string) : string :=
  fold_right String.append EmptyString lines.

(** What a combinator returns for a failed Result: the error and the
    diagnostic in a struct whose value is zero. *)
Definition propagated {V : Type} `{Zero V} (e : error) (stk : string)
  : result.Result V :=
  {| result.value := zero; result.err := e;
     result.isErr := true; result.stack := stk |}.

(** The first failed Result of a list, if there is one. *)
Fixpoint firstErr {T : Type} (results : list (result.Result T))
  : Datatypes.option (result.Result T) :=
  match results with
  | [] => Datatypes.None
  | r :: rest => if result.isErr r then Datatypes.Some r else firstErr rest
  end.

(** The first Left of a list, if there is one. *)
Fixpoint firstLeft {T U : Type} (eithers : list (either.Either T U))
  : Datatypes.option (either.Either T U) :=
  match eithers with
  | [] => Datatypes.None
  | e :: rest => if either.isLeft e then Datatypes.Some e else firstLeft rest
  end.



(** ** examples/validation: the errors of a user, field by field *)

Definition fieldErrors (u : validation.User) : list validation.ValidationError :=
  (if Nat.ltb (String.length (validation.Username u)) 3
   then [ validation.mkValidationError "username" "must be at least 3 characters" ]
   else [])
  ++ (if strings.Contains (validation.Email u) "@"
      then []
      else [ validation.mkValidationError "email" "must contain @" ])
  ++ (if (validation.Age u <? 18)%Z
      then [ validation.mkValidationError "age" "must be at least 18" ]
      else []).

(** * Properties *)

(** ** Either: the accumulating apply *)

Section EitherApplyMap_spec.
Import either.
Context {U V : Type} `{Zero U} `{Zero V} `{Zero (U -> V)}.

(** C1.  [EitherApplyMap(e, efn, combine)]: when both operands are Left,
    [e = Left(e1)] and [efn = Left(e2)], the result is
    [Left(combine(e2, e1))], the Left of the function side first; with
    [combine = append] this is [Left(append(e2, e1))].  When exactly one
    operand is Left its value comes back unchanged, and when both are Right
    the result is Right of the function applied to the value. *)
Theorem EitherApplyMap_accumulates :
  (forall (T : Type) (ZT : Zero T) (combine : T -> T -> T)
          (e1 e2 : T) (v : U) (fn : U -> V),
      EitherApplyMap (Left e1) (Left e2) combine = Left (combine e2 e1)
      /\ EitherApplyMap (Left e1) (Right fn) combine = Left e1
      /\ EitherApplyMap (Right v) (Left e2) combine = Left e2
      /\ EitherApplyMap (Right v) (Right fn) combine = Right (fn v))
  /\ (forall (X : Type) (e1 e2 : list X),
         EitherApplyMap (U := U) (V := V) (Left e1) (Left e2) (@app X)
         = Left (e2 ++ e1)).
Proof.
  split.
  - intros T ZT combine e1 e2 v fn. repeat split.
  - intros X e1 e2. reflexivity.
Qed.

End EitherApplyMap_spec.

(** The example of the package's documentation: the value side holds
    [error1], the function side [error2], and [combine(a, b) = b + "; " + a]
    receives the function side as [a]. *)
Example ExampleEitherApplyMap :
  let nilFn : Zero (Z -> Z) := {| zero := fun x => x |} in
  either.UnwrapLeft (fun _ => EmptyString)
    (either.EitherApplyMap
       (either.Left (U := Z) "error1"%string)
       (either.Left (U := Z -> Z) "error2"%string)
       (fun a b => (b ++ "; " ++ a)%string))
  = Returned "error1; error2"%string.
Proof. reflexivity. Qed.

(** ** Reader: [Local] *)

Section Local_spec.
Import reader.
Context {E A : Type}.

(** C6.  [Local(r, f).Run(e)] equals [r.Run(f(e))]; in particular
    [Local(Ask(), f).Run(env)] equals [f(env)] while [Ask().Run(env)] is
    still [env].  The changed environment is seen by the wrapped Reader only:
    a Reader sequenced after it, or zipped with it, runs against [e]. *)
Theorem Local_scoped (r : Reader E A) (f : E -> E) (e : E) :
  Run (Local r f) e = Run r (f e)
  /\ Run (Local Ask f) e = f e
  /\ Run Ask e = e
  /\ (forall (B : Type) (k : A -> Reader E B),
         Run (FlatMap (Local r f) k) e = Run (k (Run r (f e))) e)
  /\ (forall (B U : Type) (sibling : Reader E B) (h : A -> B -> U),
         Run (Zip (Local r f) sibling h) e = h (Run r (f e)) (Run sibling e)
         /\ Run (Zip sibling (Local r f) (fun b a => h a b)) e
            = h (Run r (f e)) (Run sibling e)).
Proof.
  repeat split.
Qed.

End Local_spec.

(** ** Option: extraction *)

Section Option_extraction.
Import option.
Context {T : Type} `{Zero T}.

Lemma Unwrap_cases (o : Option T) :
  (valid o = true /\ Unwrap o = Returned (value o))
  \/ (valid o = false /\ Unwrap o = Panicked (panicString "unwrapping None")).
Proof.
  unfold Unwrap. destruct (valid o); simpl; [left | right]; split; reflexivity.
Qed.

(** C9, as the code has it.  [Unwrap] returns the contained value of every
    [Some(v)]; it panics exactly when the receiver is None, and the value of
    the panic is the string [unwrapping None].  A panic is not a returned
    value: on None nothing is returned, so the failure never becomes a
    None, Err or Left. *)
Theorem Unwrap_panics_exactly_on_None :
  (forall v : T, Unwrap (Some v) = Returned v)
  /\ Unwrap (None (T := T)) = Panicked (panicString "unwrapping None")
  /\ (forall (o : Option T) (p : panicValue),
         Unwrap o = Panicked p
         <-> valid o = false /\ p = panicString "unwrapping None")
  /\ (forall (o : Option T) (v : T),
         Unwrap o = Returned v <-> valid o = true /\ v = value o).
Proof.
  split; [reflexivity | split; [reflexivity | split]].
  - intros o p. destruct (Unwrap_cases o) as [[Hv Hu] | [Hv Hu]]; rewrite Hu, Hv.
    + split; [discriminate | intros [E _]; discriminate].
    + split.
      * intros E. injection E as <-. split; reflexivity.
      * intros [_ ->]. reflexivity.
  - intros o v. destruct (Unwrap_cases o) as [[Hv Hu] | [Hv Hu]]; rewrite Hu, Hv.
    + split.
      * intros E. injection E as <-. split; reflexivity.
      * intros [_ ->]. reflexivity.
    + split; [discriminate | intros [E _]; discriminate].
Qed.

End Option_extraction.

(** C9 on an input: [Unwrap] of [None] panics, [Unwrap] of [Some(7)]
    returns 7. *)
Lemma Unwrap_panics_exactly_on_None_witness :
  option.Unwrap (option.None (T := Z)) = Panicked (panicString "unwrapping None")
  /\ option.Unwrap (option.Some 7%Z) = Returned 7%Z.
Proof.
  destruct (@Unwrap_panics_exactly_on_None Z _) as (_ & _ & Hpanic & Hreturn).
  split.
  - apply (proj2 (Hpanic option.None (panicString "unwrapping None"))).
    split; reflexivity.
  - apply (proj2 (Hreturn (option.Some 7%Z) 7%Z)). split; reflexivity.
Defined.

(** C9, as the claim words it: the panic of [Unwrap] on None does not carry
    the text [unwrap called on None]. *)
Lemma Unwrap_None_message_differs :
  ~ (forall o : option.Option Z,
        option.valid o = false
        <-> option.Unwrap o = Panicked (panicString "unwrap called on None")).
Proof.
  intros Hclaim.
  destruct (Hclaim option.None) as [Hpanic _].
  specialize (Hpanic eq_refl). discriminate Hpanic.
Qed.

(** ** Result: the invariant *)

Section Result_invariant.
Import result.
Variable Admissible : error -> Prop.

#[local] Abbreviation Inv := (ResultInvariant Admissible).

Ltac inv_cases :=
  repeat match goal with
         | H : ResultInvariant _ _ |- _ => destruct H as [? ?]
         | |- ResultInvariant _ _ => split; simpl; intros
         | |- context [if isErr ?r then _ else _] => destruct (isErr r) eqn:?; simpl
         end;
  try solve [auto | discriminate | split; auto | intuition congruence].

Lemma Inv_Ok (T : Type) (v : T) : Inv (Ok v).
Proof. unfold Ok. inv_cases. Qed.

Lemma Inv_Err (T : Type) (ZT : Zero T) (stk : runtime.CallStack) (e : error) :
  Admissible e -> Inv (Err (T := T) stk e).
Proof. intros Ha. unfold Err. inv_cases. Qed.

Lemma Inv_FromReturn (T : Type) (stk : runtime.CallStack) (v : T) (e : error) :
  Inv (FromReturn stk v e).
Proof. unfold FromReturn. destruct e; inv_cases. Qed.

Lemma Inv_ResultMap (T U : Type) (ZU : Zero U) (r : Result T) (fn : T -> U) :
  Inv r -> Inv (ResultMap r fn).
Proof. intros Hr. unfold ResultMap, Ok. inv_cases. Qed.

Lemma Inv_ResultFlatMap (T U : Type) (ZU : Zero U) (r : Result T) (fn : T -> Result U) :
  Inv r -> (forall v, Inv (fn v)) -> Inv (ResultFlatMap r fn).
Proof.
  intros Hr Hfn. unfold ResultFlatMap.
  destruct (isErr r) eqn:Hfail; [| apply Hfn].
  destruct Hr as [_ Hr]. split; simpl; intros; [discriminate | auto].
Qed.

Lemma Inv_ResultApply (T U : Type) (ZU : Zero U) (r : Result T) (fn : Result (T -> U)) :
  Inv r -> Inv fn -> Inv (ResultApply r fn).
Proof. intros Hr Hfn. unfold ResultApply, Ok. inv_cases. Qed.

Lemma Inv_ResultSequence_loop (T : Type) (results : list (Result T)) :
  (forall r, In r results -> Inv r) ->
  forall values : Result (list T),
    Inv values -> Inv (fold_left ResultSequence_step results values).
Proof.
  induction results as [| r results IH]; intros Hall values Hvalues; simpl.
  - exact Hvalues.
  - apply IH.
    + intros r' Hin. apply Hall. right. exact Hin.
    + unfold ResultSequence_step. apply Inv_ResultFlatMap; [exact Hvalues |].
      intros vs. apply Inv_ResultMap. apply Hall. left. reflexivity.
Qed.

Lemma Inv_Wrap (T : Type) (ZT : Zero T) (r : Result T) (msg : string) :
  Inv r -> Inv (Wrap r msg).
Proof.
  intros Hr. unfold Wrap. destruct (isErr r) eqn:Hfail; simpl; [| exact Hr].
  split; simpl; intros; [discriminate |].
  unfold fmt.Errorf_s_w. destruct (Error (err r)); discriminate.
Qed.

Lemma Built_Inv (T : Type) (ZT : Zero T) (r : Result T) :
  Built Admissible ZT r -> Inv r.
Proof.
  induction 1.
  - apply Inv_Ok.
  - apply Inv_Err. assumption.
  - apply Inv_FromReturn.
  - apply Inv_ResultMap. assumption.
  - apply Inv_ResultApply; assumption.
  - apply Inv_ResultFlatMap; assumption.
  - apply Inv_ResultSequence_loop; [assumption | apply Inv_Ok].
  - unfold And. destruct (isErr r); assumption.
  - unfold AndThen. destruct (isErr r); [assumption | auto].
  - unfold Or. destruct (isErr r); assumption.
  - unfold OrElse. destruct (isErr r); simpl; [auto | assumption].
  - unfold Ensure. destruct (isErr r); [assumption |].
    destruct (pred (value r)); simpl; [assumption | apply Inv_Err; assumption].
  - unfold EnsureWith. destruct (isErr r); [assumption |].
    destruct (pred (value r)); simpl; [assumption | apply Inv_Err; auto].
  - apply Inv_Wrap. assumption.
  - unfold Recover. destruct (isErr r); [apply Inv_Ok | assumption].
  - unfold RecoverWith. destruct (isErr r); [auto | assumption].
Qed.

(** C2, as the code has it.  Every Result reachable through the exported
    constructors and combinators carries no diagnostic, and no error, when it
    is successful.
    When it is failed it carries a non-nil error provided every error handed
    to [Err] and [Ensure], or produced for [EnsureWith], was non-nil.  [Err]
    stores the error it is given as it is: the Result of [Err(nil)] is failed
    and its error is nil. *)
Theorem Result_invariant (T : Type) (ZT : Zero T) (r : Result T) :
  Built Admissible ZT r ->
  NoDiagnosticOnSuccess r
  /\ (isErr r = false -> err r = nilError)
  /\ ((forall e, Admissible e -> e <> nilError) -> ErrorOnFailure r)
  /\ (forall (stk : runtime.CallStack) (e : error),
         isErr (Err (T := T) stk e) = true /\ err (Err (T := T) stk e) = e).
Proof.
  intros Hbuilt. destruct (Built_Inv Hbuilt) as [Hok Hfail].
  split; [| split; [| split]].
  - intros Hsuccess. apply Hok. exact Hsuccess.
  - intros Hsuccess. apply Hok. exact Hsuccess.
  - intros Hnonnil Hfailed. apply Hfail; assumption.
  - intros stk e. split; reflexivity.
Qed.

End Result_invariant.

(** C2 on an input: a chain that starts from [FromReturn] with an error and
    goes through [Map] and [Wrap] is failed and carries an error. *)
Lemma Result_invariant_witness :
  ErrorOnFailure
    (result.Wrap
       (result.ResultMap
          (result.FromReturn [] 5%Z (errorString "boom"))
          (fun x => (x + 1)%Z))
       "context").
Proof.
  refine (proj1 (proj2 (proj2
            (@Result_invariant nonNil Z _ _ _))) (fun e He => He)).
  apply Built_Wrap. apply Built_ResultMap with (ZT := Zero_int).
  apply Built_FromReturn.
Defined.

(** C2, as the claim words it: [Err(nil)] is reachable, failed, and carries
    no error. *)
Lemma Err_nil_carries_no_error :
  ~ (forall r : result.Result Z,
        Built anyError Zero_int r ->
        NoDiagnosticOnSuccess r /\ ErrorOnFailure r).
Proof.
  intros Hclaim.
  destruct (Hclaim (result.Err [] nilError)) as [_ Hfail].
  - apply Built_Err. exact I.
  - apply Hfail; reflexivity.
Qed.

(** ** Result: the diagnostic of a propagated failure *)

Section Result_diagnostic.
Import result.
Context {T U : Type} `{Zero T} `{Zero U}.

(** C3.  For a failed Result [r], the Result that [Map], [FlatMap], [Apply],
    [And] and [Wrap] return has the diagnostic of [r]: these combinators take
    no call stack, so the trace is the one captured where the failure was
    constructed.  ([Apply] returns the failure of its value operand; when the
    value operand is successful and the function operand failed, it returns
    the function operand's failure, again with its own diagnostic.)  [Wrap]
    puts the message and [: ] in front of the error's description, wraps the
    error, and leaves a successful Result as it is. *)
Theorem failure_keeps_diagnostic (r : Result T) :
  isErr r = true ->
  (forall fn : T -> U,
      stack (ResultMap r fn) = stack r
      /\ err (ResultMap r fn) = err r /\ isErr (ResultMap r fn) = true)
  /\ (forall fn : T -> Result U,
         stack (ResultFlatMap r fn) = stack r
         /\ err (ResultFlatMap r fn) = err r /\ isErr (ResultFlatMap r fn) = true)
  /\ (forall fn : Result (T -> U),
         stack (ResultApply r fn) = stack r
         /\ err (ResultApply r fn) = err r /\ isErr (ResultApply r fn) = true)
  /\ (forall (rv : Result T) (rf : Result (T -> U)),
         isErr rv = false ->
         isErr rf = true ->
         stack (ResultApply rv rf) = stack rf
         /\ err (ResultApply rv rf) = err rf /\ isErr (ResultApply rv rf) = true)
  /\ (forall fn : T -> T, stack (Map r fn) = stack r)
  /\ (forall fn : T -> Result T, stack (FlatMap r fn) = stack r)
  /\ (forall res : Result T, And r res = r)
  /\ (forall msg : string,
         stack (Wrap r msg) = stack r
         /\ StackTrace (Wrap r msg) = StackTrace r
         /\ isErr (Wrap r msg) = true
         /\ (forall text : string,
                Error (err r) = Returned text ->
                Error (err (Wrap r msg)) = Returned (msg ++ ": " ++ text)%string
                /\ errorsUnwrap (err (Wrap r msg)) = err r)
         /\ (exists text : string,
                Error (err (Wrap r msg)) = Returned (msg ++ ": " ++ text)%string))
  /\ (forall (ok : Result T) (msg : string), isErr ok = false -> Wrap ok msg = ok)
  /\ (forall (stk : runtime.CallStack) (e : error) (fn : T -> U) (msg : string),
         StackTrace (Wrap (Err (T := T) stk e) msg) = callers stk
         /\ StackTrace (ResultMap (Err (T := T) stk e) fn) = callers stk).
Proof.
  intros Hfail.
  unfold Map, FlatMap, ResultMap, ResultFlatMap, ResultApply, And, Wrap, StackTrace.
  rewrite Hfail. simpl.
  repeat match goal with |- _ /\ _ => split end; auto.
  - intros rv rf Hok Hrf. rewrite Hok, Hrf. simpl. auto.
  - intros msg. unfold fmt.Errorf_s_w.
    repeat match goal with |- _ /\ _ => split end; auto.
    + intros text Htext. rewrite Htext. simpl. auto.
    + destruct (Error (err r)) as [text | p]; simpl; eauto.
  - intros ok msg Hok. rewrite Hok. reflexivity.
Qed.

End Result_diagnostic.

(** C3 on an input: a failure built by [Err] at a call stack of two user
    frames keeps that trace through [Map] and [Wrap], and the wrapped error
    reads [ctx: boom]. *)
Lemma failure_keeps_diagnostic_witness :
  let stk := [ runtime.mkFrame "runtime/extern.go" 331 "runtime.Callers";
               runtime.mkFrame "result.go" 71 "gofp.callers";
               runtime.mkFrame "result.go" 50 "gofp.Err";
               runtime.mkFrame "ledger.go" 12 "main.debit";
               runtime.mkFrame "ledger.go" 40 "main.main";
               runtime.mkFrame "runtime/proc.go" 283 "runtime.main" ] in
  let r := result.Err (T := Z) stk (errorString "boom") in
  result.isErr r = true
  /\ result.stack (result.Wrap (result.Map r (fun x => (x + 1)%Z)) "ctx")
     = ("ledger.go:12 main.debit" ++ newline ++ "ledger.go:40 main.main" ++ newline)%string
  /\ Error (result.err (result.Wrap r "ctx")) = Returned "ctx: boom"%string.
Proof.
  intros stk r.
  assert (Hfail : result.isErr r = true) by reflexivity.
  destruct (failure_keeps_diagnostic (U := Z) r Hfail)
    as (_ & _ & _ & _ & Hmap & _ & _ & Hwrap & _).
  split; [exact Hfail | split].
  - destruct (failure_keeps_diagnostic (U := Z)
                (result.Map r (fun x => (x + 1)%Z)) eq_refl)
      as (_ & _ & _ & _ & _ & _ & _ & Hwrap' & _).
    destruct (Hwrap' "ctx"%string) as [-> _]. rewrite Hmap. reflexivity.
  - destruct (Hwrap "ctx"%string) as (_ & _ & _ & Htext & _).
    apply (Htext "boom"%string). reflexivity.
Defined.

(** ** Writer: the order of the accumulated output *)

Section Writer_order.
Import writer.
Context {W A B : Type}.

(** C4.  When [w] yields [(a, log1)] and [f(a)] yields [(b, log2)],
    [FlatMap(w, f).Run()] is [(b, Append(log1, log2))] with the monoid of
    [w]; [Apply(w, wf).Run()] applies the function of [wf] to the value of
    [w] and its output is [Append(output of w, output of wf)].  With list or
    string concatenation as the monoid the output of [w] comes first. *)
Theorem Writer_output_left_to_right (w : Writer W A) (a : A) (log1 : W) :
  Run w = (a, log1) ->
  (forall (f : A -> Writer W B) (b : B) (log2 : W),
      Run (f a) = (b, log2) ->
      Run (FlatMap w f) = (b, Append (monoid w) log1 log2))
  /\ (forall (wf : Writer W (A -> B)) (fn : A -> B) (logF : W),
         Run wf = (fn, logF) ->
         Run (Apply w wf) = (fn a, Append (monoid w) log1 logF))
  /\ (forall (X : Type) (v : A) (out1 out2 : list X)
             (f : A -> Writer (list X) B) (wf : Writer (list X) (A -> B)),
         let w1 := TellWithValue v out1 (writer_test.SliceMonoid X) in
         (snd (Run (f v)) = out2 -> snd (Run (FlatMap w1 f)) = out1 ++ out2)
         /\ (snd (Run wf) = out2 -> snd (Run (Apply w1 wf)) = out1 ++ out2))
  /\ (forall (v : A) (out1 out2 : string)
             (f : A -> Writer string B) (wf : Writer string (A -> B)),
         let w1 := TellWithValue v out1 writer_test.StringMonoid in
         (snd (Run (f v)) = out2 ->
          snd (Run (FlatMap w1 f)) = (out1 ++ out2)%string)
         /\ (snd (Run wf) = out2 ->
             snd (Run (Apply w1 wf)) = (out1 ++ out2)%string)).
Proof.
  intros Hw.
  split; [| split; [| split]].
  - intros f b log2 Hf. unfold Run in *. simpl. rewrite Hw, Hf. reflexivity.
  - intros wf fn logF Hwf. unfold Run in *. simpl. unfold Run.
    rewrite Hw, Hwf. reflexivity.
  - intros X v out1 out2 f wf w1. split; intros Hout; unfold Run in *; simpl; unfold Run.
    + destruct (g (f v) tt) as [b log2]. simpl in *. subst. reflexivity.
    + destruct (g wf tt) as [fn logF]. simpl in *. subst. reflexivity.
  - intros v out1 out2 f wf w1. split; intros Hout; unfold Run in *; simpl; unfold Run.
    + destruct (g (f v) tt) as [b log2]. simpl in *. subst. reflexivity.
    + destruct (g wf tt) as [fn logF]. simpl in *. subst. reflexivity.
Qed.

End Writer_order.

(** C4 on an input: [first] then [second], never the reverse. *)
Lemma Writer_output_left_to_right_witness :
  let m := writer_test.SliceMonoid string in
  let w := writer.TellWithValue 1%Z ["first"%string] m in
  let f := fun x : Z => writer.TellWithValue (x + 1)%Z ["second"%string] m in
  let wf := writer.TellWithValue (fun x : Z => (x * 2)%Z) ["fn"%string] m in
  writer.Run (writer.FlatMap w f) = (2%Z, ["first"; "second"]%string)
  /\ writer.Run (writer.Apply w wf) = (2%Z, ["first"; "fn"]%string)
  /\ snd (writer.Run (writer.FlatMap w f)) <> ["second"; "first"]%string.
Proof.
  intros m w f wf.
  destruct (@Writer_output_left_to_right (list string) Z Z w 1%Z ["first"%string]
              eq_refl) as (Hflat & Happly & _).
  split; [| split].
  - apply (Hflat f 2%Z ["second"%string]). reflexivity.
  - apply (Happly wf (fun x : Z => (x * 2)%Z) ["fn"%string]). reflexivity.
  - rewrite (Hflat f 2%Z ["second"%string] eq_refl). simpl. discriminate.
Defined.

(** ** State: [Sequence] *)

Section State_Sequence.
Import state.
Context {S A : Type}.

Lemma Sequence_loop (states : list (State S A)) :
  forall (values : State S (list A)) (s0 : S),
    Run (fold_left Sequence_step states values) s0
    = (let (vs0, s1) := Run values s0 in
       let (vs, sn) := threadAll states s1 in
       (vs0 ++ vs, sn)).
Proof.
  induction states as [| s rest IH]; intros values s0; simpl.
  - destruct (Run values s0) as [vs0 s1]. rewrite app_nil_r. reflexivity.
  - rewrite IH. unfold Sequence_step, Zip, Run at 1. simpl.
    fold (Run values s0). destruct (Run values s0) as [vs0 s1].
    fold (Run s s1). destruct (Run s s1) as [v s2].
    destruct (threadAll rest s2) as [vs sn].
    rewrite <- app_assoc. reflexivity.
Qed.

Lemma chain_final_state (rest : list (State S A)) :
  forall (acc : State S A) (s0 : S),
    snd (Run (chain acc rest) s0) = snd (threadAll rest (snd (Run acc s0))).
Proof.
  unfold chain.
  induction rest as [| s rest IH]; intros acc s0; simpl.
  - reflexivity.
  - rewrite IH. unfold FlatMap_method, Run at 2. simpl.
    fold (Run acc s0). destruct (Run acc s0) as [a s1]. simpl.
    fold (Run s s1). destruct (Run s s1) as [v s2]. simpl.
    destruct (threadAll rest s2) as [vs sn]. reflexivity.
Qed.

Lemma threadAll_length (states : list (State S A)) :
  forall s0 : S, List.length (fst (threadAll states s0)) = List.length states.
Proof.
  induction states as [| s rest IH]; intros s0; simpl.
  - reflexivity.
  - destruct (Run s s0) as [v s1]. specialize (IH s1).
    destruct (threadAll rest s1) as [vs sn]. simpl in *. congruence.
Qed.

(** C5.  [Sequence(states).Run(s0)] threads the state through the elements
    in list order: its value is the list of the elements' values in that
    order, one per element, and its state is the one the last element left.
    The final state is that of [s1.FlatMap(_ => s2)...FlatMap(_ => sn)] run
    on [s0].  For the empty list the value is the empty list and the state
    is [s0]. *)
Theorem Sequence_threads_state (s0 : S) :
  (forall states : list (State S A),
      Run (Sequence states) s0 = threadAll states s0
      /\ List.length (fst (Run (Sequence states) s0)) = List.length states)
  /\ (forall (s1 : State S A) (rest : list (State S A)),
         snd (Run (Sequence (s1 :: rest)) s0) = snd (Run (chain s1 rest) s0))
  /\ (forall s1 s2 s3 : State S A,
         let (v1, st1) := Run s1 s0 in
         let (v2, st2) := Run s2 st1 in
         let (v3, st3) := Run s3 st2 in
         Run (Sequence [s1; s2; s3]) s0 = ([v1; v2; v3], st3)
         /\ snd (Run (FlatMap_method (FlatMap_method s1 (fun _ => s2)) (fun _ => s3)) s0)
            = st3)
  /\ Run (Sequence ([] : list (State S A))) s0 = ([], s0).
Proof.
  assert (Hseq : forall states : list (State S A),
             Run (Sequence states) s0 = threadAll states s0).
  { intros states. unfold Sequence. rewrite Sequence_loop. simpl.
    destruct (threadAll states s0) as [vs sn]. reflexivity. }
  split; [| split; [| split]].
  - intros states. split; [apply Hseq |].
    rewrite Hseq. apply threadAll_length.
  - intros s1 rest. rewrite Hseq, chain_final_state. simpl.
    destruct (Run s1 s0) as [v s']. simpl.
    destruct (threadAll rest s') as [vs sn]. reflexivity.
  - intros s1 s2 s3.
    destruct (Run s1 s0) as [v1 st1] eqn:H1.
    destruct (Run s2 st1) as [v2 st2] eqn:H2.
    destruct (Run s3 st2) as [v3 st3] eqn:H3.
    split.
    + rewrite Hseq. simpl. rewrite H1, H2, H3. reflexivity.
    + unfold FlatMap_method, Run in *. simpl. rewrite H1, H2, H3. reflexivity.
  - reflexivity.
Qed.

End State_Sequence.

(** A counter that returns the state and advances it, three times. *)
Example Sequence_of_ticks :
  let tick : state.State Z Z := {| state.g := fun s => (s, (s + 1)%Z) |} in
  state.Run (state.Sequence [tick; tick; tick]) 0%Z = ([0; 1; 2]%Z, 3%Z).
Proof. reflexivity. Qed.

(** The ledger: from 0, [Modify(+10)], [Modify(-3)], then [Gets(identity)]. *)
Example ledger_scenario :
  state.Run
    (state.FlatMap (state.Modify (fun s => (s + 10)%Z)) (fun _ =>
     state.FlatMap (state.Modify (fun s => (s - 3)%Z)) (fun _ =>
     state.Gets (fun s => s))))
    0%Z
  = (7%Z, 7%Z).
Proof. reflexivity. Qed.

(** ** Option: [OptionSequence] *)

Section Option_Sequence.
Import option.
Context {T : Type} `{Zero T}.

Lemma OptionSequence_loop_None (options : list (Option T)) :
  fold_left OptionSequence_step options None = None.
Proof.
  induction options as [| o options IH]; simpl; [reflexivity | exact IH].
Qed.

Lemma OptionSequence_loop (options : list (Option T)) :
  forall vs : list T,
    fold_left OptionSequence_step options (Some vs)
    = if forallb (@valid T) options
      then Some (vs ++ map (@value T) options)
      else None.
Proof.
  induction options as [| o options IH]; intros vs; simpl.
  - rewrite app_nil_r. reflexivity.
  - unfold OptionSequence_step at 2, OptionFlatMap, OptionMap. simpl.
    destruct (valid o); simpl.
    + rewrite IH, <- app_assoc. reflexivity.
    + apply OptionSequence_loop_None.
Qed.

Lemma OptionSequence_eq (options : list (Option T)) :
  OptionSequence options
  = if forallb (@valid T) options then Some (map (@value T) options) else None.
Proof. unfold OptionSequence. rewrite OptionSequence_loop. reflexivity. Qed.

(** C7.  [OptionSequence] returns Some of the contained values, in the order
    of the slice, when every element is Some, and None as soon as one element,
    anywhere, is None.  The empty slice gives Some of the empty list. *)
Theorem OptionSequence_all_or_nothing :
  (forall vs : list T, OptionSequence (map Some vs) = Some vs)
  /\ (forall options : list (Option T),
         forallb IsSome options = true ->
         OptionSequence options = Some (map (@value T) options))
  /\ (forall (options : list (Option T)) (o : Option T),
         In o options -> IsNone o = true -> OptionSequence options = None)
  /\ (forall before after : list (Option T),
         OptionSequence (before ++ None :: after) = None)
  /\ OptionSequence ([] : list (Option T)) = Some [].
Proof.
  split; [| split; [| split; [| split]]].
  - intros vs. rewrite OptionSequence_eq.
    replace (forallb (@valid T) (map Some vs)) with true.
    + rewrite map_map. simpl. rewrite map_id. reflexivity.
    + symmetry. apply forallb_forall. intros o Hin.
      apply in_map_iff in Hin. destruct Hin as (v & <- & _). reflexivity.
  - intros options Hall. rewrite OptionSequence_eq.
    assert (Hvalid : forallb (@valid T) options = true) by exact Hall.
    rewrite Hvalid. reflexivity.
  - intros options o Hin Hnone. rewrite OptionSequence_eq.
    destruct (forallb (@valid T) options) eqn:Hall; [| reflexivity].
    rewrite forallb_forall in Hall. specialize (Hall o Hin).
    unfold IsNone in Hnone. rewrite Hall in Hnone. discriminate.
  - intros before after. rewrite OptionSequence_eq.
    rewrite forallb_app. simpl. rewrite andb_false_r. reflexivity.
  - reflexivity.
Qed.

End Option_Sequence.

(** C7 on the inputs of the specification: [Some(1), Some(2), Some(3)] gives
    [Some([1, 2, 3])], and None in the middle gives None. *)
Lemma OptionSequence_all_or_nothing_witness :
  option.OptionSequence [option.Some 1%Z; option.Some 2%Z; option.Some 3%Z]
  = option.Some [1%Z; 2%Z; 3%Z]
  /\ option.OptionSequence [option.Some 1%Z; option.None; option.Some 3%Z]
     = option.None.
Proof.
  destruct (@OptionSequence_all_or_nothing Z _) as (_ & Hsome & Hnone & _).
  split.
  - apply (Hsome [option.Some 1%Z; option.Some 2%Z; option.Some 3%Z]).
    reflexivity.
  - apply (Hnone [option.Some 1%Z; option.None; option.Some 3%Z] option.None).
    + simpl. right. left. reflexivity.
    + reflexivity.
Defined.

(** ** [TryUnwrap] *)

Section TryUnwrap_spec.
Context {T U : Type} `{Zero T} `{Zero U}.

(** C10.  [TryUnwrap] never panics: on [Some(v)], [Ok(v)] and [Right(v)] it
    returns [(v, true)]; on None, on every failed Result and on every Left it
    returns the zero value of the success type and [false].
    [Either.TryUnwrapLeft] does the same for the left side. *)
Theorem TryUnwrap_total :
  (forall v : T, option.TryUnwrap (option.Some v) = (v, true))
  /\ option.TryUnwrap (option.None (T := T)) = (zero, false)
  /\ (forall o : option.Option T,
         option.valid o = false -> option.TryUnwrap o = (zero, false))
  /\ (forall v : T, result.TryUnwrap (result.Ok v) = (v, true))
  /\ (forall (stk : runtime.CallStack) (e : error),
         result.TryUnwrap (result.Err (T := T) stk e) = (zero, false))
  /\ (forall (stk : runtime.CallStack) (v : T) (e : error),
         e <> nilError ->
         result.TryUnwrap (result.FromReturn stk v e) = (zero, false))
  /\ (forall r : result.Result T,
         result.isErr r = true -> result.TryUnwrap r = (zero, false))
  /\ (forall v : U, either.TryUnwrap (either.Right (T := T) v) = (v, true))
  /\ (forall l : T, either.TryUnwrap (either.Left (U := U) l) = (zero, false))
  /\ (forall l : T, either.TryUnwrapLeft (either.Left (U := U) l) = (l, true))
  /\ (forall v : U,
         either.TryUnwrapLeft (either.Right (T := T) v) = (zero, false))
  /\ (forall e : either.Either T U,
         either.TryUnwrap e
         = (if either.isLeft e then (zero, false) else (either.right e, true))
         /\ either.TryUnwrapLeft e
            = (if either.isLeft e then (either.left e, true) else (zero, false))).
Proof.
  repeat match goal with |- _ /\ _ => split end; try reflexivity.
  - intros o Hnone. unfold option.TryUnwrap. rewrite Hnone. reflexivity.
  - intros stk v e Hnonnil. unfold result.TryUnwrap, result.FromReturn. simpl.
    destruct e; [contradiction | reflexivity | reflexivity].
  - intros r Hfail. unfold result.TryUnwrap. rewrite Hfail. reflexivity.
  - intros e. unfold either.TryUnwrap, either.TryUnwrapLeft.
    destruct (either.isLeft e); split; reflexivity.
Qed.

End TryUnwrap_spec.

(** C10 on an input: a failure that still holds a value, as [FromReturn]
    builds it, unwraps to the zero value. *)
Lemma TryUnwrap_total_witness :
  result.TryUnwrap (result.FromReturn [] 5%Z (errorString "boom")) = (0%Z, false)
  /\ result.ToReturn (result.FromReturn [] 5%Z (errorString "boom"))
     = (5%Z, errorString "boom").
Proof.
  destruct (@TryUnwrap_total Z Z _ _) as (_ & _ & _ & _ & _ & Hfrom & _).
  split.
  - apply Hfrom. discriminate.
  - reflexivity.
Defined.

(** ** The monad laws *)

(** Every Option and Either that the package hands out is canonical, so the
    premise of right identity below excludes no value a caller can hold. *)
Section Canonical_values.
Import option.
Context {T U : Type} `{Zero T} `{Zero U}.

Lemma OptionCanonical_exported :
  OptionCanonical (option.None (T := T))
  /\ (forall v : T, OptionCanonical (option.Some v))
  /\ (forall (o : option.Option T) (fn : T -> U),
         OptionCanonical (option.OptionMap o fn))
  /\ (forall (o : option.Option T) (fn : option.Option (T -> U)),
         OptionCanonical (option.OptionApply o fn))
  /\ (forall (o : option.Option T) (fn : T -> option.Option U),
         (forall v, OptionCanonical (fn v)) ->
         OptionCanonical (option.OptionFlatMap o fn))
  /\ (forall (o : option.Option T) (fn : T -> bool),
         OptionCanonical o -> OptionCanonical (option.Filter o fn))
  /\ (forall o opt : option.Option T,
         OptionCanonical o -> OptionCanonical opt ->
         OptionCanonical (option.And o opt) /\ OptionCanonical (option.Or o opt)).
Proof.
  unfold OptionCanonical.
  split; [reflexivity |].
  split; [intros v; simpl; discriminate |].
  split.
  { intros o fn. unfold OptionMap. destruct (valid o); simpl; [discriminate | reflexivity]. }
  split.
  { intros o fn. unfold OptionApply.
    destruct (valid o), (valid fn); simpl; (discriminate || reflexivity). }
  split.
  { intros o fn Hfn. unfold OptionFlatMap.
    destruct (valid o); simpl; [apply Hfn | reflexivity]. }
  split.
  { intros o fn Ho. unfold Filter.
    destruct (valid o) eqn:Hv; simpl; [| reflexivity].
    destruct (fn (value o)); simpl; [rewrite Hv; discriminate | reflexivity]. }
  intros o opt Ho Hopt. unfold And, Or.
  destruct (valid o) eqn:Hv; simpl; split; auto.
  rewrite Hv. discriminate.
Qed.

Lemma EitherCanonical_exported :
  (forall l : T, EitherCanonical (either.Left (U := U) l))
  /\ (forall v : U, EitherCanonical (either.Right (T := T) v))
  /\ (forall (e : either.Either T U) (fn : U -> U),
         EitherCanonical (either.EitherMap e fn))
  /\ (forall (e : either.Either T U) (fn : T -> T),
         EitherCanonical (either.EitherMapLeft e fn))
  /\ (forall (e : either.Either T U) (fn : U -> either.Either T U),
         (forall v, EitherCanonical (fn v)) ->
         EitherCanonical (either.EitherFlatMap e fn))
  /\ (forall e : either.Either T U, EitherCanonical (either.Swap e))
  /\ (forall r : result.Result T,
         exists e : either.Either error T,
           either.FromResult r = Returned e /\ EitherCanonical e).
Proof.
  unfold EitherCanonical.
  split; [reflexivity |].
  split; [reflexivity |].
  split.
  { intros e fn. unfold either.EitherMap. destruct (either.isLeft e); reflexivity. }
  split.
  { intros e fn. unfold either.EitherMapLeft. destruct (either.isLeft e); reflexivity. }
  split.
  { intros e fn Hfn. unfold either.EitherFlatMap.
    destruct (either.isLeft e); [reflexivity | apply Hfn]. }
  split.
  { intros e. unfold either.Swap. destruct (either.isLeft e); reflexivity. }
  intros r. unfold either.FromResult, result.IsErr, result.UnwrapErr, result.Unwrap.
  destruct (result.isErr r); simpl; eexists; split; reflexivity.
Qed.

Lemma ResultCanonical_exported :
  (forall v : T, ResultCanonical (result.Ok v))
  /\ (forall (stk : runtime.CallStack) (e : error),
         ResultCanonical (result.Err (T := T) stk e))
  /\ (forall (stk : runtime.CallStack) (v : T),
         ResultCanonical (result.FromReturn stk v nilError))
  /\ (forall (stk : runtime.CallStack) (v : T) (e : error),
         e <> nilError ->
         (ResultCanonical (result.FromReturn stk v e) <-> v = zero))
  /\ (forall (r : result.Result T) (fn : T -> U),
         ResultCanonical (result.ResultMap r fn))
  /\ (forall (r : result.Result T) (fn : T -> result.Result U),
         (forall v, ResultCanonical (fn v)) ->
         ResultCanonical (result.ResultFlatMap r fn))
  /\ (forall (r : result.Result T) (msg : string),
         ResultCanonical r -> ResultCanonical (result.Wrap r msg)).
Proof.
  unfold ResultCanonical.
  split; [intros v; simpl; auto |].
  split; [reflexivity |].
  split; [intros stk v; simpl; auto |].
  split.
  { intros stk v e Hnonnil. destruct e; simpl; [contradiction | tauto | tauto]. }
  split.
  { intros r fn. unfold result.ResultMap.
    destruct (result.isErr r); simpl; auto. }
  split.
  { intros r fn Hfn. unfold result.ResultFlatMap.
    destruct (result.isErr r); simpl; [reflexivity | apply Hfn]. }
  intros r msg Hr. unfold result.Wrap.
  destruct (result.isErr r) eqn:Hfail; simpl; [reflexivity |].
  rewrite Hfail. exact Hr.
Qed.

End Canonical_values.

Section Monad_laws.
Context {A B C : Type} `{Zero A} `{Zero B} `{Zero C}.
Context {L : Type} `{Zero L}.
Context {E S W : Type}.

Lemma Option_monad_laws :
  (forall (a : A) (f : A -> option.Option B),
      option.OptionFlatMap (option.Some a) f = f a)
  /\ (forall c : option.Option A,
         OptionCanonical c -> option.OptionFlatMap c option.Some = c)
  /\ (forall (c : option.Option A) (f : A -> option.Option B)
             (g : B -> option.Option C),
         option.OptionFlatMap (option.OptionFlatMap c f) g
         = option.OptionFlatMap c (fun x => option.OptionFlatMap (f x) g)).
Proof.
  split; [reflexivity | split].
  - intros [v ok] Hc. unfold OptionCanonical in Hc. simpl in Hc.
    destruct ok; [reflexivity |].
    rewrite (Hc eq_refl). reflexivity.
  - intros c f g. unfold option.OptionFlatMap.
    destruct (option.valid c); reflexivity.
Qed.

Lemma Result_monad_laws :
  (forall (a : A) (f : A -> result.Result B),
      result.ResultFlatMap (result.Ok a) f = f a)
  /\ (forall c : result.Result A,
         ResultCanonical c -> result.ResultFlatMap c result.Ok = c)
  /\ (forall (c : result.Result A) (f : A -> result.Result B)
             (g : B -> result.Result C),
         result.ResultFlatMap (result.ResultFlatMap c f) g
         = result.ResultFlatMap c (fun x => result.ResultFlatMap (f x) g)).
Proof.
  split; [reflexivity | split].
  - intros [v e failed stk] Hc. unfold ResultCanonical in Hc. simpl in Hc.
    unfold result.ResultFlatMap, result.Ok. simpl.
    destruct failed.
    + rewrite Hc. reflexivity.
    + destruct Hc as [-> ->]. reflexivity.
  - intros c f g. unfold result.ResultFlatMap.
    destruct (result.isErr c); reflexivity.
Qed.

Lemma Either_monad_laws :
  (forall (a : A) (f : A -> either.Either L B),
      either.EitherFlatMap (either.Right a) f = f a)
  /\ (forall c : either.Either L A,
         EitherCanonical c -> either.EitherFlatMap c either.Right = c)
  /\ (forall (c : either.Either L A) (f : A -> either.Either L B)
             (g : B -> either.Either L C),
         either.EitherFlatMap (either.EitherFlatMap c f) g
         = either.EitherFlatMap c (fun x => either.EitherFlatMap (f x) g)).
Proof.
  split; [reflexivity | split].
  - intros [l r isL] Hc. unfold EitherCanonical in Hc. simpl in Hc.
    unfold either.EitherFlatMap, either.Left, either.Right. simpl.
    destruct isL; rewrite Hc; reflexivity.
  - intros c f g. unfold either.EitherFlatMap.
    destruct (either.isLeft c); reflexivity.
Qed.

Lemma Reader_monad_laws (e : E) :
  (forall (a : A) (f : A -> reader.Reader E B),
      reader.Run (reader.FlatMap (reader.Pure a) f) e = reader.Run (f a) e)
  /\ (forall c : reader.Reader E A,
         reader.Run (reader.FlatMap c reader.Pure) e = reader.Run c e)
  /\ (forall (c : reader.Reader E A) (f : A -> reader.Reader E B)
             (g : B -> reader.Reader E C),
         reader.Run (reader.FlatMap (reader.FlatMap c f) g) e
         = reader.Run (reader.FlatMap c (fun x => reader.FlatMap (f x) g)) e).
Proof. repeat split. Qed.

Lemma State_monad_laws (s0 : S) :
  (forall (a : A) (f : A -> state.State S B),
      state.Run (state.FlatMap (state.Pure a) f) s0 = state.Run (f a) s0)
  /\ (forall c : state.State S A,
         state.Run (state.FlatMap c state.Pure) s0 = state.Run c s0)
  /\ (forall (c : state.State S A) (f : A -> state.State S B)
             (g : B -> state.State S C),
         state.Run (state.FlatMap (state.FlatMap c f) g) s0
         = state.Run (state.FlatMap c (fun x => state.FlatMap (f x) g)) s0).
Proof.
  split; [reflexivity | split].
  - intros c. unfold state.Run. simpl. destruct (state.g c s0). reflexivity.
  - intros c f g. unfold state.Run. simpl. destruct (state.g c s0). reflexivity.
Qed.

Lemma Writer_monad_laws (m : writer.Monoid W) :
  MonoidLaws m ->
  (forall (a : A) (f : A -> writer.Writer W B),
      writer.Run (writer.FlatMap (writer.Pure a m) f) = writer.Run (f a))
  /\ (forall c : writer.Writer W A,
         writer.monoid c = m ->
         writer.Run (writer.FlatMap c (fun a => writer.Pure a m)) = writer.Run c)
  /\ (forall (c : writer.Writer W A) (f : A -> writer.Writer W B)
             (g : B -> writer.Writer W C),
         writer.monoid c = m ->
         (forall x, writer.monoid (f x) = m) ->
         writer.Run (writer.FlatMap (writer.FlatMap c f) g)
         = writer.Run (writer.FlatMap c (fun x => writer.FlatMap (f x) g))).
Proof.
  intros [Hl Hr Hassoc]. unfold writer.Run.
  split; [| split].
  - intros a f. simpl. destruct (writer.g (f a) tt) as [b w2].
    rewrite Hl. reflexivity.
  - intros c Hc. simpl. destruct (writer.g c tt) as [a w1].
    rewrite Hc, Hr. reflexivity.
  - intros c f g Hc Hf. simpl. destruct (writer.g c tt) as [a w1].
    rewrite (Hf a), Hc. destruct (writer.g (f a) tt) as [b w2].
    destruct (writer.g (g b) tt) as [c' w3].
    rewrite Hassoc. reflexivity.
Qed.

(** C8, as the code has it.  Left identity, right identity and associativity
    of [FlatMap], with [Some], [Ok], [Right] and [Pure] as unit.  For Option,
    Either and Result the two sides are equal structs; right identity is
    about canonical values, which for Option and Either are all the values
    the package hands out and for Result all but the failures of
    [FromReturn] that still hold a value.  For Reader, State and Writer the
    two sides have equal [Run] results; for Writer the monoid obeys the
    monoid laws and every Writer involved carries it. *)
Theorem monad_laws (e : E) (s0 : S) (m : writer.Monoid W) :
  MonoidLaws m ->
  ((forall (a : A) (f : A -> option.Option B),
       option.OptionFlatMap (option.Some a) f = f a)
   /\ (forall c : option.Option A,
          OptionCanonical c -> option.OptionFlatMap c option.Some = c)
   /\ (forall (c : option.Option A) (f : A -> option.Option B)
              (g : B -> option.Option C),
          option.OptionFlatMap (option.OptionFlatMap c f) g
          = option.OptionFlatMap c (fun x => option.OptionFlatMap (f x) g)))
  /\ ((forall (a : A) (f : A -> result.Result B),
          result.ResultFlatMap (result.Ok a) f = f a)
      /\ (forall c : result.Result A,
             ResultCanonical c -> result.ResultFlatMap c result.Ok = c)
      /\ (forall (c : result.Result A) (f : A -> result.Result B)
                 (g : B -> result.Result C),
             result.ResultFlatMap (result.ResultFlatMap c f) g
             = result.ResultFlatMap c (fun x => result.ResultFlatMap (f x) g)))
  /\ ((forall (a : A) (f : A -> either.Either L B),
          either.EitherFlatMap (either.Right a) f = f a)
      /\ (forall c : either.Either L A,
             EitherCanonical c -> either.EitherFlatMap c either.Right = c)
      /\ (forall (c : either.Either L A) (f : A -> either.Either L B)
                 (g : B -> either.Either L C),
             either.EitherFlatMap (either.EitherFlatMap c f) g
             = either.EitherFlatMap c (fun x => either.EitherFlatMap (f x) g)))
  /\ ((forall (a : A) (f : A -> reader.Reader E B),
          reader.Run (reader.FlatMap (reader.Pure a) f) e = reader.Run (f a) e)
      /\ (forall c : reader.Reader E A,
             reader.Run (reader.FlatMap c reader.Pure) e = reader.Run c e)
      /\ (forall (c : reader.Reader E A) (f : A -> reader.Reader E B)
                 (g : B -> reader.Reader E C),
             reader.Run (reader.FlatMap (reader.FlatMap c f) g) e
             = reader.Run (reader.FlatMap c (fun x => reader.FlatMap (f x) g)) e))
  /\ ((forall (a : A) (f : A -> state.State S B),
          state.Run (state.FlatMap (state.Pure a) f) s0 = state.Run (f a) s0)
      /\ (forall c : state.State S A,
             state.Run (state.FlatMap c state.Pure) s0 = state.Run c s0)
      /\ (forall (c : state.State S A) (f : A -> state.State S B)
                 (g : B -> state.State S C),
             state.Run (state.FlatMap (state.FlatMap c f) g) s0
             = state.Run (state.FlatMap c (fun x => state.FlatMap (f x) g)) s0))
  /\ ((forall (a : A) (f : A -> writer.Writer W B),
          writer.Run (writer.FlatMap (writer.Pure a m) f) = writer.Run (f a))
      /\ (forall c : writer.Writer W A,
             writer.monoid c = m ->
             writer.Run (writer.FlatMap c (fun a => writer.Pure a m))
             = writer.Run c)
      /\ (forall (c : writer.Writer W A) (f : A -> writer.Writer W B)
                 (g : B -> writer.Writer W C),
             writer.monoid c = m ->
             (forall x, writer.monoid (f x) = m) ->
             writer.Run (writer.FlatMap (writer.FlatMap c f) g)
             = writer.Run (writer.FlatMap c (fun x => writer.FlatMap (f x) g)))).
Proof.
  intros Hm.
  split; [exact Option_monad_laws |].
  split; [exact Result_monad_laws |].
  split; [exact Either_monad_laws |].
  split; [exact (Reader_monad_laws e) |].
  split; [exact (State_monad_laws s0) |].
  exact (Writer_monad_laws Hm).
Qed.

End Monad_laws.

Lemma SliceMonoid_laws (T : Type) : MonoidLaws (writer_test.SliceMonoid T).
Proof.
  split; simpl; intros.
  - reflexivity.
  - apply app_nil_r.
  - symmetry. apply app_assoc.
Qed.

Lemma string_append_nil_r (s : string) : (s ++ "")%string = s.
Proof. induction s as [| c s IH]; simpl; [| rewrite IH]; reflexivity. Qed.

Lemma string_append_assoc (a b c : string) :
  ((a ++ b) ++ c)%string = (a ++ (b ++ c))%string.
Proof. induction a as [| x a IH]; simpl; [| rewrite IH]; reflexivity. Qed.

Lemma StringMonoid_laws : MonoidLaws writer_test.StringMonoid.
Proof.
  split; simpl; intros.
  - reflexivity.
  - apply string_append_nil_r.
  - apply string_append_assoc.
Qed.

(** C8 on inputs: right identity at a failure built by [Err], and at a
    Writer over the slice monoid. *)
Lemma monad_laws_witness :
  let failed := result.Err (T := Z) [] (errorString "boom") in
  let w := writer.TellWithValue 1%Z ["a"%string] (writer_test.SliceMonoid string) in
  result.ResultFlatMap failed result.Ok = failed
  /\ writer.Run
       (writer.FlatMap w (fun a => writer.Pure a (writer_test.SliceMonoid string)))
     = writer.Run w.
Proof.
  intros failed w.
  destruct (@monad_laws Z Z Z _ _ _ Z _ unit unit (list string) tt tt
              (writer_test.SliceMonoid string) (SliceMonoid_laws string))
    as (_ & (_ & Hresult & _) & _ & _ & _ & (_ & Hwriter & _)).
  split.
  - apply Hresult. reflexivity.
  - apply Hwriter. reflexivity.
Defined.

(** C8, as the claim words it: right identity fails for the Result that
    [FromReturn] builds from a value together with an error.  [FlatMap]
    propagates the error and the diagnostic in a fresh struct whose value is
    zero, and [ToReturn] shows the difference. *)
Lemma Result_right_identity_fails :
  let c := result.FromReturn [] 5%Z (errorString "boom") in
  result.FlatMap c result.Ok <> c
  /\ result.ToReturn c = (5%Z, errorString "boom")
  /\ result.ToReturn (result.FlatMap c result.Ok) = (0%Z, errorString "boom").
Proof.
  intros c. split; [| split; reflexivity].
  intros Heq. apply (f_equal (@result.value Z)) in Heq. discriminate Heq.
Qed.

(** * Further properties of the packages *)

(** ** [ResultSequence] and [EitherSequence] *)

Section Sequence_first_failure.
Context {T U : Type} `{Zero T} `{Zero U}.

Lemma ResultSequence_loop_failed (results : list (result.Result T))
  (e : error) (stk : string) :
  fold_left result.ResultSequence_step results (propagated e stk)
  = propagated e stk.
Proof.
  induction results as [| r results IH]; simpl; [reflexivity | exact IH].
Qed.

Lemma ResultSequence_loop_ok (results : list (result.Result T)) :
  forall vs : list T,
    fold_left result.ResultSequence_step results (result.Ok vs)
    = match firstErr results with
      | Datatypes.Some r => propagated (result.err r) (result.stack r)
      | Datatypes.None => result.Ok (vs ++ map (@result.value T) results)
      end.
Proof.
  induction results as [| r results IH]; intros vs; simpl.
  - rewrite app_nil_r. reflexivity.
  - unfold result.ResultSequence_step at 2, result.ResultFlatMap, result.ResultMap.
    simpl. destruct (result.isErr r); simpl.
    + apply ResultSequence_loop_failed.
    + rewrite IH, <- app_assoc. reflexivity.
Qed.

(** X1.  [ResultSequence] returns Ok of the values, in order, when no element is
    failed.  Otherwise it returns the failure of the first failed element:
    its error and its diagnostic, whatever comes after it in the slice. *)
Theorem ResultSequence_first_failure (results : list (result.Result T)) :
  result.ResultSequence results
  = match firstErr results with
    | Datatypes.Some r => propagated (result.err r) (result.stack r)
    | Datatypes.None => result.Ok (map (@result.value T) results)
    end.
Proof. unfold result.ResultSequence. apply ResultSequence_loop_ok. Qed.

Lemma EitherSequence_loop_Left (eithers : list (either.Either T U)) (l : T) :
  fold_left either.EitherSequence_step eithers (either.Left l) = either.Left l.
Proof.
  induction eithers as [| e eithers IH]; simpl; [reflexivity | exact IH].
Qed.

Lemma EitherSequence_loop_Right (eithers : list (either.Either T U)) :
  forall vs : list U,
    fold_left either.EitherSequence_step eithers (either.Right vs)
    = match firstLeft eithers with
      | Datatypes.Some e => either.Left (either.left e)
      | Datatypes.None => either.Right (vs ++ map (@either.right T U) eithers)
      end.
Proof.
  induction eithers as [| e eithers IH]; intros vs; simpl.
  - rewrite app_nil_r. reflexivity.
  - unfold either.EitherSequence_step at 2, either.EitherFlatMap, either.EitherMap.
    simpl. destruct (either.isLeft e); simpl.
    + apply EitherSequence_loop_Left.
    + rewrite IH, <- app_assoc. reflexivity.
Qed.

(** X2.  [EitherSequence] returns Right of the right values, in order, when no
    element is Left, and otherwise Left of the left value of the first Left
    in the slice. *)
Theorem EitherSequence_first_Left (eithers : list (either.Either T U)) :
  either.EitherSequence eithers
  = match firstLeft eithers with
    | Datatypes.Some e => either.Left (either.left e)
    | Datatypes.None => either.Right (map (@either.right T U) eithers)
    end.
Proof. unfold either.EitherSequence. apply EitherSequence_loop_Right. Qed.

End Sequence_first_failure.

(** Two failures in a slice: the first one is reported, with its trace. *)
Example ResultSequence_reports_first :
  let first := result.Err (T := Z) [] (errorString "first") in
  let second := result.Err (T := Z) [] (errorString "second") in
  result.err (result.ResultSequence [result.Ok 1%Z; first; result.Ok 3%Z; second])
  = errorString "first".
Proof. reflexivity. Qed.

(** ** The stack trace of a failure *)

Section callers_spec.
Import runtime.
Import result.

Lemma callers_loop_throughMain (rest : list Frame) :
  forall frame : Frame,
    callers_loop frame rest = joinLines (map frameLine (throughMain (frame :: rest))).
Proof.
  induction rest as [| next rest IH]; intros frame; simpl.
  - destruct (String.eqb (Function frame) "main.main"); reflexivity.
  - destruct (String.eqb (Function frame) "main.main"); [reflexivity |].
    rewrite IH. reflexivity.
Qed.

Lemma throughMain_length (frames : list Frame) :
  List.length (throughMain frames) <= List.length frames.
Proof.
  induction frames as [| frame rest IH]; simpl; [lia |].
  destruct (String.eqb (Function frame) "main.main"); simpl; lia.
Qed.

Lemma throughMain_prefix (frames : list Frame) :
  exists after : list Frame, frames = throughMain frames ++ after.
Proof.
  induction frames as [| frame rest [after IH]]; simpl.
  - exists []. reflexivity.
  - destruct (String.eqb (Function frame) "main.main").
    + exists rest. reflexivity.
    + exists after. simpl. rewrite <- IH. reflexivity.
Qed.

Lemma frameLine_not_empty (frame : Frame) (s : string) :
  (frameLine frame ++ s)%string <> EmptyString.
Proof.
  unfold frameLine. destruct (File frame); simpl; discriminate.
Qed.

(** X3.  The trace that [callers] renders: one line for each frame after the
    first [pcSkip] of the call stack, at most [pcCount] of them, up to and
    including the first frame of [main.main].  The rendered frames are a
    prefix of the frames above the skipped ones, and the trace is empty
    exactly when the call stack has no frame beyond the skipped ones. *)
Theorem callers_frames (stk : CallStack) :
  let captured := throughMain (firstn pcCount (skipn pcSkip stk)) in
  callers stk = joinLines (map frameLine captured)
  /\ List.length captured <= pcCount
  /\ (exists above : list Frame, skipn pcSkip stk = captured ++ above)
  /\ (forall frame : Frame,
         In frame captured ->
         Function frame = "main.main"%string ->
         exists before : list Frame, captured = before ++ [frame])
  /\ (callers stk = EmptyString <-> List.length stk <= pcSkip).
Proof.
  intros captured. subst captured. unfold callers, Callers.
  set (above := skipn pcSkip stk).
  assert (Hlen : List.length above = List.length stk - pcSkip)
    by (unfold above; apply length_skipn).
  split; [| split; [| split; [| split]]].
  - destruct (firstn pcCount above) as [| frame rest]; [reflexivity |].
    apply callers_loop_throughMain.
  - etransitivity; [apply throughMain_length |]. apply firstn_le_length.
  - destruct (throughMain_prefix (firstn pcCount above)) as [after Hafter].
    exists (after ++ skipn pcCount above).
    rewrite app_assoc, <- Hafter. symmetry. apply firstn_skipn.
  - generalize (firstn pcCount above). intros frames.
    induction frames as [| f rest IH]; intros frame Hin Hmain; simpl in *.
    + contradiction.
    + destruct (String.eqb (Function f) "main.main") eqn:Hf.
      * destruct Hin as [-> | []]. exists []. reflexivity.
      * destruct Hin as [-> | Hin].
        -- rewrite Hmain in Hf. discriminate Hf.
        -- destruct (IH frame Hin Hmain) as [before Hbefore].
           exists (f :: before). simpl. rewrite <- Hbefore. reflexivity.
  - destruct above as [| frame rest] eqn:Habove; simpl in *.
    + split; [intros _; lia | reflexivity].
    + split.
      * intros Hempty. exfalso.
        rewrite callers_loop_throughMain in Hempty. simpl in Hempty.
        exact (frameLine_not_empty _ _ Hempty).
      * intros Hshort. lia.
Qed.

End callers_spec.

(** [callers] on inputs: three frames are all skipped; of six, the frames of
    the caller up to [main.main] are rendered and [runtime.main] is not. *)
Lemma callers_frames_witness :
  let inner := [ runtime.mkFrame "runtime/extern.go" 331 "runtime.Callers";
                 runtime.mkFrame "result.go" 71 "gofp.callers";
                 runtime.mkFrame "result.go" 50 "gofp.Err" ] in
  let outer := [ runtime.mkFrame "ledger.go" 12 "main.debit";
                 runtime.mkFrame "ledger.go" 40 "main.main";
                 runtime.mkFrame "runtime/proc.go" 283 "runtime.main" ] in
  result.callers inner = EmptyString
  /\ result.callers (inner ++ outer)
     = joinLines [ ("ledger.go:12 main.debit" ++ newline)%string;
                   ("ledger.go:40 main.main" ++ newline)%string ].
Proof.
  intros inner outer. split.
  - apply (proj2 (proj2 (proj2 (proj2 (callers_frames inner))))).
    simpl. unfold result.pcSkip. lia.
  - rewrite (proj1 (callers_frames (inner ++ outer))). reflexivity.
Defined.

(** ** Functor laws *)

Section Functor_laws.
Context {A B C L M N : Type} `{Zero A} `{Zero B} `{Zero C} `{Zero L} `{Zero M} `{Zero N}.

(** X4.  [Map] with the identity gives back a canonical Option, Result or Either,
    and two [Map]s are one [Map] with the composed function; the same holds
    for [EitherMapLeft], and [EitherMap] and [EitherMapLeft] commute. *)
Theorem Map_functor_laws :
  ((forall c : option.Option A,
       OptionCanonical c -> option.OptionMap c (fun x => x) = c)
   /\ (forall (c : option.Option A) (f : A -> B) (g : B -> C),
          option.OptionMap (option.OptionMap c f) g
          = option.OptionMap c (fun x => g (f x))))
  /\ ((forall c : result.Result A,
          ResultCanonical c -> result.ResultMap c (fun x => x) = c)
      /\ (forall (c : result.Result A) (f : A -> B) (g : B -> C),
             result.ResultMap (result.ResultMap c f) g
             = result.ResultMap c (fun x => g (f x))))
  /\ ((forall c : either.Either L A,
          EitherCanonical c ->
          either.EitherMap c (fun x => x) = c
          /\ either.EitherMapLeft c (fun x => x) = c)
      /\ (forall (c : either.Either L A) (f : A -> B) (g : B -> C),
             either.EitherMap (either.EitherMap c f) g
             = either.EitherMap c (fun x => g (f x)))
      /\ (forall (c : either.Either L A) (f : L -> M) (g : M -> N),
             either.EitherMapLeft (either.EitherMapLeft c f) g
             = either.EitherMapLeft c (fun x => g (f x)))
      /\ (forall (c : either.Either L A) (f : L -> M) (g : A -> B),
             either.EitherMap (either.EitherMapLeft c f) g
             = either.EitherMapLeft (either.EitherMap c g) f)).
Proof.
  split; [split | split; [split | split; [| split; [| split]]]].
  - intros [v ok] Hc. unfold OptionCanonical in Hc. simpl in Hc.
    destruct ok; [reflexivity |]. rewrite (Hc eq_refl). reflexivity.
  - intros c f g. unfold option.OptionMap. destruct (option.valid c); reflexivity.
  - intros [v e failed stk] Hc. unfold ResultCanonical in Hc. simpl in Hc.
    unfold result.ResultMap, result.Ok. simpl. destruct failed.
    + rewrite Hc. reflexivity.
    + destruct Hc as [-> ->]. reflexivity.
  - intros c f g. unfold result.ResultMap. destruct (result.isErr c); reflexivity.
  - intros [l r isL] Hc. unfold EitherCanonical in Hc. simpl in Hc.
    unfold either.EitherMap, either.EitherMapLeft, either.Left, either.Right. simpl.
    destruct isL; rewrite Hc; split; reflexivity.
  - intros c f g. unfold either.EitherMap. destruct (either.isLeft c); reflexivity.
  - intros c f g. unfold either.EitherMapLeft. destruct (either.isLeft c); reflexivity.
  - intros c f g. unfold either.EitherMap, either.EitherMapLeft.
    destruct (either.isLeft c); reflexivity.
Qed.

End Functor_laws.

(** The identity law on inputs: a failure built by [Err] and a Left. *)
Lemma Map_functor_laws_witness :
  let failed := result.Err (T := Z) [] (errorString "boom") in
  let l := either.Left (U := Z) "left"%string in
  result.ResultMap failed (fun x => x) = failed
  /\ either.EitherMap l (fun x => x) = l.
Proof.
  intros failed l.
  destruct (@Map_functor_laws Z Z Z string string string _ _ _ _ _ _)
    as (_ & (Hresult & _) & (Heither & _)).
  split.
  - apply Hresult. reflexivity.
  - apply Heither. reflexivity.
Defined.

Section Effect_functor_laws.
Context {E S W A B C : Type}.

(** X5.  For Reader, State and Writer, compared by what [Run] returns: [Map] with
    the identity changes nothing and two [Map]s are one [Map] with the
    composed function; [Map] leaves the final state of a State and the
    output of a Writer as they were. *)
Theorem Map_functor_laws_effects (e : E) (s0 : S) :
  ((forall r : reader.Reader E A,
       reader.Run (reader.Map r (fun x => x)) e = reader.Run r e)
   /\ (forall (r : reader.Reader E A) (f : A -> B) (g : B -> C),
          reader.Run (reader.Map (reader.Map r f) g) e
          = reader.Run (reader.Map r (fun x => g (f x))) e))
  /\ ((forall s : state.State S A,
          state.Run (state.Map s (fun x => x)) s0 = state.Run s s0)
      /\ (forall (s : state.State S A) (f : A -> B) (g : B -> C),
             state.Run (state.Map (state.Map s f) g) s0
             = state.Run (state.Map s (fun x => g (f x))) s0)
      /\ (forall (s : state.State S A) (f : A -> B),
             snd (state.Run (state.Map s f) s0) = snd (state.Run s s0)))
  /\ ((forall w : writer.Writer W A,
          writer.Run (writer.Map w (fun x => x)) = writer.Run w)
      /\ (forall (w : writer.Writer W A) (f : A -> B) (g : B -> C),
             writer.Run (writer.Map (writer.Map w f) g)
             = writer.Run (writer.Map w (fun x => g (f x))))
      /\ (forall (w : writer.Writer W A) (f : A -> B),
             snd (writer.Run (writer.Map w f)) = snd (writer.Run w))).
Proof.
  split; [split; reflexivity |].
  split; [split; [| split] | split; [| split]].
  - intros s. unfold state.Run. simpl. destruct (state.g s s0). reflexivity.
  - intros s f g. unfold state.Run. simpl. destruct (state.g s s0). reflexivity.
  - intros s f. unfold state.Run. simpl. destruct (state.g s s0). reflexivity.
  - intros w. unfold writer.Run. simpl. destruct (writer.g w tt). reflexivity.
  - intros w f g. unfold writer.Run. simpl. destruct (writer.g w tt). reflexivity.
  - intros w f. unfold writer.Run. simpl. destruct (writer.g w tt). reflexivity.
Qed.

End Effect_functor_laws.

(** ** Result at the boundary: [FromReturn], [ToReturn], [FromResult] *)

Section Result_boundary.
Context {T : Type} `{Zero T}.


(** X7.  [FromResult] never panics, although it goes through [Unwrap] and
    [UnwrapErr]: Ok becomes Right of the value and a failure becomes Left of
    the error.  The diagnostic is dropped: two failures with the same error
    give the same Either. *)
Theorem FromResult_total :
  (forall v : T, either.FromResult (result.Ok v) = Returned (either.Right v))
  /\ (forall (stk : runtime.CallStack) (e : error),
         either.FromResult (result.Err (T := T) stk e) = Returned (either.Left e))
  /\ (forall r : result.Result T,
         either.FromResult r
         = Returned (if result.isErr r then either.Left (result.err r)
                     else either.Right (result.value r)))
  /\ (forall r r' : result.Result T,
         result.isErr r = true -> result.isErr r' = true ->
         result.err r = result.err r' ->
         either.FromResult r = either.FromResult r').
Proof.
  assert (Hall : forall r : result.Result T,
             either.FromResult r
             = Returned (if result.isErr r then either.Left (result.err r)
                         else either.Right (result.value r))).
  { intros r. unfold either.FromResult, result.IsErr, result.UnwrapErr, result.Unwrap.
    destruct (result.isErr r); reflexivity. }
  split; [reflexivity | split; [reflexivity | split; [exact Hall |]]].
  intros r r' Hr Hr' Herr. rewrite !Hall, Hr, Hr', Herr. reflexivity.
Qed.

End Result_boundary.


(** The same error with two different traces gives one Either. *)
Lemma FromResult_total_witness :
  let here := [ runtime.mkFrame "a.go" 1 "runtime.Callers";
                runtime.mkFrame "a.go" 2 "gofp.callers";
                runtime.mkFrame "a.go" 3 "gofp.Err";
                runtime.mkFrame "a.go" 4 "main.main" ] in
  either.FromResult (result.Err (T := Z) here (errorString "boom"))
  = either.FromResult (result.Err (T := Z) [] (errorString "boom")).
Proof.
  intros here.
  apply (proj2 (proj2 (proj2 (@FromResult_total Z _)))); reflexivity.
Defined.

(** ** [Apply] *)

Section Apply_spec.
Context {T U V : Type} `{Zero T} `{Zero U} `{Zero V} `{Zero (U -> V)}.

(** X8.  When both operands are failed, [ResultApply] reports the failure of the
    value operand and [EitherApply] the Left of the function operand;
    [OptionApply] is None as soon as one operand is None.
    [EitherApplyMap] differs from [EitherApply] only when both operands are
    Left, and equals it when [combine] returns its first argument. *)
Theorem Apply_failure_precedence :
  (forall (r : result.Result U) (fn : result.Result (U -> V)),
      result.isErr r = true -> result.isErr fn = true ->
      result.ResultApply r fn = propagated (result.err r) (result.stack r))
  /\ (forall (e1 e2 : T),
         either.EitherApply (V := V) (either.Left (U := U) e1) (either.Left e2)
         = either.Left e2)
  /\ (forall (o : option.Option U) (fn : option.Option (U -> V)),
         option.IsSome (option.OptionApply o fn)
         = option.IsSome o && option.IsSome fn)
  /\ (forall (e : either.Either T U) (efn : either.Either T (U -> V))
             (combine : T -> T -> T),
         either.isLeft e && either.isLeft efn = false ->
         either.EitherApplyMap e efn combine = either.EitherApply e efn)
  /\ (forall (e : either.Either T U) (efn : either.Either T (U -> V)),
         either.EitherApplyMap e efn (fun fromFn _ => fromFn)
         = either.EitherApply e efn).
Proof.
  split; [| split; [| split; [| split]]].
  - intros r fn Hr Hfn. unfold result.ResultApply. rewrite Hr. reflexivity.
  - reflexivity.
  - intros o fn. unfold option.OptionApply, option.IsSome.
    destruct (option.valid o), (option.valid fn); reflexivity.
  - intros e efn combine Hnot. unfold either.EitherApplyMap, either.EitherApply.
    destruct (either.isLeft e), (either.isLeft efn); try reflexivity.
    discriminate Hnot.
  - intros e efn. unfold either.EitherApplyMap, either.EitherApply.
    destruct (either.isLeft e), (either.isLeft efn); reflexivity.
Qed.

(** X9.  Applying a function that is itself a success is [Map]: for Option with
    [Some], for Result with [Ok], for Either with [Right], also through
    [EitherApplyMap]. *)
Theorem Apply_of_pure_is_Map (f : U -> V) :
  (forall o : option.Option U,
      option.OptionApply o (option.Some f) = option.OptionMap o f)
  /\ (forall r : result.Result U,
         result.ResultApply r (result.Ok f) = result.ResultMap r f)
  /\ (forall e : either.Either T U,
         either.EitherApply e (either.Right f) = either.EitherMap e f)
  /\ (forall (e : either.Either T U) (combine : T -> T -> T),
         either.EitherApplyMap e (either.Right f) combine = either.EitherMap e f).
Proof.
  split; [| split; [| split]].
  - intros o. unfold option.OptionApply, option.OptionMap. simpl.
    destruct (option.valid o); reflexivity.
  - intros r. unfold result.ResultApply, result.ResultMap. simpl.
    destruct (result.isErr r); reflexivity.
  - intros e. unfold either.EitherApply, either.EitherMap. simpl.
    destruct (either.isLeft e); reflexivity.
  - intros e combine. unfold either.EitherApplyMap, either.EitherMap. simpl.
    destruct (either.isLeft e); reflexivity.
Qed.

End Apply_spec.

(** Both operands failed: Result keeps the value side, Either the function
    side. *)
Lemma Apply_failure_precedence_witness :
  let nilFn : Zero (Z -> Z) := {| zero := fun x => x |} in
  result.err
    (result.ResultApply
       (result.Err (T := Z) [] (errorString "value"))
       (result.Err (T := Z -> Z) [] (errorString "function")))
  = errorString "value"
  /\ either.EitherApplyMap
       (either.Right (T := string) 1%Z) (either.Left (U := Z -> Z) "function"%string)
       (fun a b => (a ++ b)%string)
     = either.Left "function"%string.
Proof.
  intros nilFn.
  destruct (@Apply_failure_precedence string Z Z _ _ _ nilFn)
    as (Hresult & _ & _ & Hmap & _).
  split.
  - rewrite Hresult; reflexivity.
  - rewrite Hmap; reflexivity.
Defined.

(** ** Either: the left side *)

Section Either_left_side.
Context {T U V W : Type} `{Zero T} `{Zero U} `{Zero V} `{Zero W}.

Lemma Swap_Swap {X Y : Type} `{Zero X} `{Zero Y} (e : either.Either X Y) :
  EitherCanonical e -> either.Swap (either.Swap e) = e.
Proof.
  destruct e as [l r isL]. unfold EitherCanonical. simpl. intros Hc.
  unfold either.Swap, either.Left, either.Right. simpl.
  destruct isL; simpl; rewrite Hc; reflexivity.
Qed.

(** X10.  [Swap] exchanges the two cases and keeps the payload; swapping twice
    gives back a canonical Either.  The left-side operations are the
    right-side ones seen through [Swap]. *)
Theorem Swap_exchanges_sides :
  (forall l : T, either.Swap (either.Left (U := U) l) = either.Right l)
  /\ (forall r : U, either.Swap (either.Right (T := T) r) = either.Left r)
  /\ (forall e : either.Either T U,
         either.IsLeft (either.Swap e) = either.IsRight e
         /\ either.IsRight (either.Swap e) = either.IsLeft e
         /\ EitherCanonical (either.Swap e))
  /\ (forall e : either.Either T U,
         EitherCanonical e -> either.Swap (either.Swap e) = e)
  /\ (forall (e : either.Either T U) (f : T -> V),
         either.EitherMapLeft e f
         = either.Swap (either.EitherMap (either.Swap e) f))
  /\ (forall (e : either.Either T U) (f : T -> either.Either V U),
         (forall l, EitherCanonical (f l)) ->
         either.EitherFlatMapLeft e f
         = either.Swap
             (either.EitherFlatMap (either.Swap e) (fun l => either.Swap (f l))))
  /\ (forall e : either.Either T U,
         either.TryUnwrapLeft e = either.TryUnwrap (either.Swap e)
         /\ (forall d : T,
                either.UnwrapLeftOr e d = either.UnwrapOr (either.Swap e) d)).
Proof.
  split; [reflexivity | split; [reflexivity |]].
  split; [| split; [| split; [| split]]].
  - intros e. unfold either.Swap, either.IsLeft, either.IsRight, EitherCanonical.
    destruct (either.isLeft e); simpl; repeat split.
  - intros e Hc. apply Swap_Swap. exact Hc.
  - intros e f. unfold either.EitherMapLeft, either.EitherMap, either.Swap.
    destruct (either.isLeft e); reflexivity.
  - intros [l0 r0 isL0] f Hf.
    unfold either.EitherFlatMapLeft, either.EitherFlatMap, either.Swap at 2 3.
    simpl. destruct isL0; simpl.
    + symmetry. apply Swap_Swap. apply Hf.
    + reflexivity.
  - intros e. unfold either.TryUnwrapLeft, either.TryUnwrap, either.UnwrapLeftOr,
      either.UnwrapOr, either.Swap.
    destruct (either.isLeft e); split; reflexivity.
Qed.

End Either_left_side.

(** [Swap] twice on an input. *)
Lemma Swap_exchanges_sides_witness :
  let e := either.Left (U := Z) "left"%string in
  either.Swap (either.Swap e) = e.
Proof.
  intros e.
  apply (proj1 (proj2 (proj2 (proj2 (@Swap_exchanges_sides string Z Z _ _ _))))).
  reflexivity.
Defined.

Section Either_left_monad.
Context {A B C R : Type} `{Zero A} `{Zero B} `{Zero C} `{Zero R}.

(** X11.  [EitherFlatMapLeft] with [Left] as unit obeys the monad laws on the left
    side: left identity, right identity on canonical values, and
    associativity.  A Right passes through it unchanged in case and value. *)
Theorem FlatMapLeft_monad_laws :
  (forall (a : A) (f : A -> either.Either B R),
      either.EitherFlatMapLeft (either.Left a) f = f a)
  /\ (forall c : either.Either A R,
         EitherCanonical c -> either.EitherFlatMapLeft c either.Left = c)
  /\ (forall (c : either.Either A R) (f : A -> either.Either B R)
             (g : B -> either.Either C R),
         either.EitherFlatMapLeft (either.EitherFlatMapLeft c f) g
         = either.EitherFlatMapLeft c (fun x => either.EitherFlatMapLeft (f x) g))
  /\ (forall (r : R) (f : A -> either.Either B R),
         either.EitherFlatMapLeft (either.Right r) f = either.Right r).
Proof.
  split; [reflexivity | split; [| split; [| reflexivity]]].
  - intros [l r isL] Hc. unfold EitherCanonical in Hc. simpl in Hc.
    unfold either.EitherFlatMapLeft, either.Left, either.Right. simpl.
    destruct isL; rewrite Hc; reflexivity.
  - intros c f g. unfold either.EitherFlatMapLeft.
    destruct (either.isLeft c); reflexivity.
Qed.

End Either_left_monad.

(** Right identity on the left side, on an input. *)
Lemma FlatMapLeft_monad_laws_witness :
  let c := either.Right (T := string) 3%Z in
  either.EitherFlatMapLeft c either.Left = c.
Proof.
  intros c.
  apply (proj1 (proj2 (@FlatMapLeft_monad_laws string string string Z _ _ _ _))).
  reflexivity.
Defined.

(** ** Option: [Filter], [And], [Or] *)

Section Option_combinators.
Import option.
Context {T : Type} `{Zero T}.

(** X12.  [Filter] returns the receiver or None, and what it returns is Some
    exactly when the receiver is Some of a value that satisfies the
    predicate.  Filtering twice is filtering by the conjunction, so [Filter]
    is idempotent; a predicate that always holds gives back a canonical
    receiver. *)
Theorem Filter_keeps_satisfying (o : Option T) (p q : T -> bool) :
  (Filter o p = o \/ Filter o p = None)
  /\ IsSome (Filter o p) = IsSome o && p (value o)
  /\ (IsSome (Filter o p) = true -> Filter o p = o /\ p (value (Filter o p)) = true)
  /\ Filter (Filter o p) q = Filter o (fun v => p v && q v)
  /\ Filter (Filter o p) p = Filter o p
  /\ (OptionCanonical o -> Filter o (fun _ => true) = o)
  /\ Filter o (fun _ => false) = None.
Proof.
  unfold Filter, IsSome, OptionCanonical.
  destruct o as [v ok]. simpl.
  destruct ok; simpl; [destruct (p v) eqn:Hp; simpl |].
  - rewrite ?Hp. simpl. destruct (q v); simpl; repeat split; auto.
  - rewrite ?Hp. simpl. repeat split; auto; try discriminate.
  - repeat split; auto; try discriminate.
    intros Hzero. rewrite (Hzero eq_refl). reflexivity.
Qed.

(** X13.  [Or] returns the first Some and [And] the second operand unless the
    first is None: [Or] is associative with None as unit (on the right for a
    canonical receiver), [And] is associative, [And] is [FlatMap] with a
    constant function, [AndThen] is [FlatMap] and [OrElse] with a constant
    function is [Or]. *)
Theorem And_Or_algebra (a b c : Option T) :
  Or None a = a
  /\ (OptionCanonical a -> Or a None = a)
  /\ Or (Or a b) c = Or a (Or b c)
  /\ And (And a b) c = And a (And b c)
  /\ IsSome (Or a b) = IsSome a || IsSome b
  /\ IsSome (And a b) = IsSome a && IsSome b
  /\ And a b = FlatMap a (fun _ => b)
  /\ (forall fn : T -> Option T, AndThen a fn = FlatMap a fn)
  /\ OrElse a (fun _ => b) = Or a b
  /\ (IsSome a = true -> Or a b = a /\ And a b = b).
Proof.
  unfold Or, And, AndThen, OrElse, FlatMap, OptionFlatMap, IsSome, OptionCanonical.
  destruct a as [va oka], b as [vb okb], c as [vc okc]. simpl.
  destruct oka, okb; simpl; repeat split; auto; try discriminate;
    intros Hzero; rewrite (Hzero eq_refl); reflexivity.
Qed.

End Option_combinators.

(** [Filter] on inputs: 4 passes an evenness test, and the result satisfies
    it. *)
Lemma Filter_keeps_satisfying_witness :
  option.Filter (option.Some 4%Z) Z.even = option.Some 4%Z
  /\ option.Filter (option.Some 3%Z) Z.even = option.None.
Proof.
  destruct (@Filter_keeps_satisfying Z _ (option.Some 4%Z) Z.even Z.even)
    as (_ & _ & Hkeep & _).
  split.
  - apply Hkeep. reflexivity.
  - reflexivity.
Defined.

(** [Or] with None on the right, on an input. *)
Lemma And_Or_algebra_witness :
  option.Or (option.Some 1%Z) option.None = option.Some 1%Z.
Proof.
  apply (proj1 (proj2 (@And_Or_algebra Z _ (option.Some 1%Z) option.None option.None))).
  unfold OptionCanonical. discriminate.
Defined.

(** ** Result: recovery, [And], [Ensure], [Wrap] *)

Section Result_combinators.
Import result.
Context {T : Type} `{Zero T}.

(** X14.  [Recover] always returns a success; it is [RecoverWith] followed by [Ok].
    [RecoverWith] and [OrElse] are the same function, and [OrElse] with a
    constant function is [Or].  Each of them returns a successful receiver as
    it is and never looks at the alternative. *)
Theorem Recover_always_Ok (r : Result T) :
  (forall fn : error -> T,
      IsOk (Recover r fn) = true
      /\ Recover r fn = RecoverWith r (fun e => Ok (fn e))
      /\ (isErr r = true -> Recover r fn = Ok (fn (err r))))
  /\ (forall fn : error -> Result T, RecoverWith r fn = OrElse r fn)
  /\ (forall res : Result T, OrElse r (fun _ => res) = Or r res)
  /\ (isErr r = false ->
      (forall fn, Recover r fn = r)
      /\ (forall fn, RecoverWith r fn = r)
      /\ (forall fn, OrElse r fn = r)
      /\ (forall res, Or r res = r)).
Proof.
  unfold Recover, RecoverWith, OrElse, Or, IsOk.
  destruct (isErr r) eqn:Hfail; simpl; repeat split; auto;
    try (rewrite Hfail; reflexivity); discriminate.
Qed.

(** X15.  [And] and [AndThen] return a failed receiver itself, value field
    included, where [FlatMap] builds a new struct: they agree with [FlatMap]
    on the failure flag, the error and the diagnostic, and are equal to it
    when the receiver is canonical. *)
Theorem AndThen_against_FlatMap (r : Result T) (fn : T -> Result T) :
  isErr (AndThen r fn) = isErr (FlatMap r fn)
  /\ err (AndThen r fn) = err (FlatMap r fn)
  /\ stack (AndThen r fn) = stack (FlatMap r fn)
  /\ TryUnwrap (AndThen r fn) = TryUnwrap (FlatMap r fn)
  /\ (ResultCanonical r -> AndThen r fn = FlatMap r fn)
  /\ (forall res : Result T, And r res = AndThen r (fun _ => res))
  /\ (isErr r = true -> AndThen r fn = r).
Proof.
  unfold AndThen, And, FlatMap, ResultFlatMap, TryUnwrap, ResultCanonical.
  destruct r as [v e failed stk]. simpl.
  destruct failed; simpl; repeat split; auto; try discriminate.
  intros ->. reflexivity.
Qed.

(** X16.  A successful Result that comes out of [Ensure] satisfies the predicate
    and is the receiver.  A failed receiver comes out as it is, without the
    predicate being consulted; a successful receiver whose value fails the
    predicate becomes the failure [Err] builds at that point, with the given
    error and a new diagnostic.  [EnsureWith] with a constant error function
    is [Ensure]. *)
Theorem Ensure_guards_predicate (stk : runtime.CallStack) (r : Result T)
  (e : error) (pred : T -> bool) :
  (isErr (Ensure stk r e pred) = false ->
   Ensure stk r e pred = r /\ pred (value (Ensure stk r e pred)) = true)
  /\ (isErr r = true -> Ensure stk r e pred = r)
  /\ (isErr r = false -> pred (value r) = false ->
      Ensure stk r e pred = Err stk e
      /\ stack (Ensure stk r e pred) = callers stk)
  /\ EnsureWith stk r pred (fun _ => e) = Ensure stk r e pred
  /\ (forall (stk' : runtime.CallStack) (e' : error),
         isErr (Ensure stk r e pred) = true ->
         Ensure stk' (Ensure stk r e pred) e' pred = Ensure stk r e pred).
Proof.
  unfold Ensure, EnsureWith.
  destruct (isErr r) eqn:Hfail; simpl.
  - rewrite Hfail. repeat split; auto; discriminate.
  - destruct (pred (value r)) eqn:Hpred; simpl.
    + rewrite Hfail, Hpred. repeat split; auto; discriminate.
    + repeat split; auto; discriminate.
Qed.


End Result_combinators.

(** [Ensure] on inputs: 5 is not above 10, so the success becomes the given
    failure; 50 passes. *)
Lemma Ensure_guards_predicate_witness :
  let above10 := fun x : Z => (10 <? x)%Z in
  result.Ensure [] (result.Ok 5%Z) (errorString "too small") above10
  = result.Err [] (errorString "too small")
  /\ result.Ensure [] (result.Ok 50%Z) (errorString "too small") above10
     = result.Ok 50%Z.
Proof.
  intros above10. split.
  - apply (proj1 (proj2 (proj2 (@Ensure_guards_predicate Z _ []
             (result.Ok 5%Z) (errorString "too small") above10))));
      reflexivity.
  - apply (proj1 (@Ensure_guards_predicate Z _ []
             (result.Ok 50%Z) (errorString "too small") above10)).
    reflexivity.
Defined.

(** A successful receiver is returned by every recovery operation. *)
Lemma Recover_always_Ok_witness :
  result.Recover (result.Ok 1%Z) (fun _ => 0%Z) = result.Ok 1%Z
  /\ result.IsOk (result.Recover (result.Err [] (errorString "boom")) (fun _ => 0%Z))
     = true.
Proof.
  split.
  - destruct (proj2 (proj2 (proj2 (@Recover_always_Ok Z (result.Ok 1%Z)))) eq_refl)
      as (Hrecover & _).
    apply Hrecover.
  - apply (proj1 (@Recover_always_Ok Z (result.Err [] (errorString "boom")))).
Defined.

(** [AndThen] returns the failure of [FromReturn] with its value, which
    [FlatMap] drops; on a failure of [Err] they are equal. *)
Lemma AndThen_against_FlatMap_witness :
  let kept := result.FromReturn [] 5%Z (errorString "boom") in
  let plain := result.Err (T := Z) [] (errorString "boom") in
  result.AndThen plain result.Ok = result.FlatMap plain result.Ok
  /\ result.ToReturn (result.AndThen kept result.Ok) = (5%Z, errorString "boom")
  /\ result.ToReturn (result.FlatMap kept result.Ok) = (0%Z, errorString "boom").
Proof.
  intros kept plain. split; [| split; reflexivity].
  apply (proj1 (proj2 (proj2 (proj2 (proj2
           (@AndThen_against_FlatMap Z _ plain result.Ok)))))).
  reflexivity.
Defined.


(** ** Extraction from Result and Either *)

Section Unwrap_family.
Context {T U : Type} `{Zero T} `{Zero U}.


(** X19.  Of [Either.Unwrap] and [Either.UnwrapLeft] exactly one returns, the one
    of the case the Either is in; the other panics with a message that names
    the case and shows the value held. *)
Theorem Either_Unwrap_or_UnwrapLeft (showT : T -> string) (showU : U -> string)
  (e : either.Either T U) :
  (either.isLeft e = false
   /\ either.Unwrap showT e = Returned (either.right e)
   /\ either.UnwrapLeft showU e
      = Panicked (panicString
          ("Cannot unwrap Left: Either is Right(" ++ showU (either.right e) ++ ")"))
   /\ either.TryUnwrap e = (either.right e, true)
   /\ either.TryUnwrapLeft e = (zero, false))
  \/ (either.isLeft e = true
      /\ either.Unwrap showT e
         = Panicked (panicString
             ("Cannot unwrap: Either is Left(" ++ showT (either.left e) ++ ")"))
      /\ either.UnwrapLeft showU e = Returned (either.left e)
      /\ either.TryUnwrap e = (zero, false)
      /\ either.TryUnwrapLeft e = (either.left e, true)).
Proof.
  unfold either.Unwrap, either.UnwrapLeft, either.TryUnwrap, either.TryUnwrapLeft.
  destruct (either.isLeft e); simpl; [right | left]; repeat split.
Qed.

End Unwrap_family.

(** ** [Fold] and the default-taking extractions *)

Section Fold_spec.
Context {T U L R : Type} `{Zero T} `{Zero U} `{Zero L}.

(** X20.  [UnwrapOr] and [UnwrapOrElse] are [Fold] with the default on the failure
    side and the identity on the success side, and [Fold] after [Map] is
    [Fold] with the function composed into the success branch, which is then
    the only place the mapped function runs. *)
Theorem Fold_eliminates :
  (forall (o : option.Option T) (d : T),
      option.UnwrapOr o d = option.OptionFold o (fun _ => d) (fun v => v)
      /\ option.UnwrapOrElse o (fun _ => d) = option.UnwrapOr o d)
  /\ (forall (o : option.Option T) (f : T -> U) (none : unit -> R) (some : U -> R),
         option.OptionFold (option.OptionMap o f) none some
         = option.OptionFold o none (fun v => some (f v)))
  /\ (forall (r : result.Result T) (d : T),
         result.UnwrapOr r d = result.ResultFold r (fun _ => d) (fun v => v)
         /\ result.UnwrapOrElse r (fun _ => d) = result.UnwrapOr r d)
  /\ (forall (r : result.Result T) (f : T -> U) (errFn : error -> R) (okFn : U -> R),
         result.ResultFold (result.ResultMap r f) errFn okFn
         = result.ResultFold r errFn (fun v => okFn (f v)))
  /\ (forall (e : either.Either L T) (d : T) (dl : L),
         either.UnwrapOr e d = either.EitherFold e (fun _ => d) (fun v => v)
         /\ either.UnwrapLeftOr e dl = either.EitherFold e (fun l => l) (fun _ => dl)
         /\ either.UnwrapOrElse e (fun _ => d) = either.UnwrapOr e d
         /\ either.UnwrapLeftOrElse e (fun _ => dl) = either.UnwrapLeftOr e dl)
  /\ (forall (e : either.Either L T) (f : T -> U) (left_fn : L -> R) (right_fn : U -> R),
         either.EitherFold (either.EitherMap e f) left_fn right_fn
         = either.EitherFold e left_fn (fun v => right_fn (f v))).
Proof.
  split; [| split; [| split; [| split; [| split]]]].
  - intros o d. unfold option.UnwrapOr, option.UnwrapOrElse, option.OptionFold.
    split; reflexivity.
  - intros o f none some. unfold option.OptionFold, option.OptionMap.
    destruct (option.valid o); reflexivity.
  - intros r d. split; reflexivity.
  - intros r f errFn okFn. unfold result.ResultFold, result.ResultMap.
    destruct (result.isErr r); reflexivity.
  - intros e d dl. repeat split.
  - intros e f left_fn right_fn. unfold either.EitherFold, either.EitherMap.
    destruct (either.isLeft e); reflexivity.
Qed.

End Fold_spec.

(** ** Reader: the algebra of [Local] and the order of [Zip] and [Apply] *)

Section Reader_Local_algebra.
Import reader.
Context {E A B : Type}.

(** X21.  Nested [Local]s apply the outer function first and the inner one to its
    result; [Local] with the identity changes nothing; [Local] has no effect
    on [Pure]; and [Local] distributes over [Map] and over [FlatMap], where
    it reaches both the first Reader and the one the continuation returns. *)
Theorem Local_composes (r : Reader E A) (f g : E -> E) (e : E) :
  Run (Local (Local r f) g) e = Run r (f (g e))
  /\ Run (Local r (fun x => x)) e = Run r e
  /\ (forall a : A, Run (Local (Pure a) f) e = a)
  /\ Run (Local Ask f) e = Run (Map Ask f) e
  /\ (forall h : A -> B,
         Run (Local (Map r h) f) e = Run (Map (Local r f) h) e)
  /\ (forall k : A -> Reader E B,
         Run (Local (FlatMap r k) f) e
         = Run (FlatMap (Local r f) (fun a => Local (k a) f)) e)
  /\ (forall fr : Reader E (A -> B),
         Run (Local (Apply r fr) f) e = Run (Apply (Local r f) (Local fr f)) e).
Proof. repeat split. Qed.

End Reader_Local_algebra.

(** ** The order of effects in [Zip] and [Apply] *)

Section Zip_Apply_order.
Context {E S W A B U : Type}.

(** X22.  [Zip] runs its first operand and then its second: for Reader both see the
    same environment; for State the second starts from the state the first
    left and its state is the final one; for Writer the output of the first
    is the left operand of [Append], with the monoid of the first.  [Apply]
    is [FlatMap] of the value operand followed by [Map] over the function
    operand, so the value operand takes effect first. *)
Theorem Zip_runs_left_to_right (e : E) (s0 : S) (f : A -> B -> U) :
  (forall (ra : reader.Reader E A) (rb : reader.Reader E B),
      reader.Run (reader.Zip ra rb f) e = f (reader.Run ra e) (reader.Run rb e))
  /\ (forall (sa : state.State S A) (sb : state.State S B),
         state.Run (state.Zip sa sb f) s0
         = (let (a, s1) := state.Run sa s0 in
            let (b, s2) := state.Run sb s1 in
            (f a b, s2)))
  /\ (forall (wa : writer.Writer W A) (wb : writer.Writer W B),
         writer.Run (writer.Zip wa wb f)
         = (let (a, logA) := writer.Run wa in
            let (b, logB) := writer.Run wb in
            (f a b, writer.Append (writer.monoid wa) logA logB)))
  /\ (forall (r : reader.Reader E A) (rf : reader.Reader E (A -> B)),
         reader.Run (reader.Apply r rf) e
         = reader.Run (reader.FlatMap r (fun a => reader.Map rf (fun fn => fn a))) e)
  /\ (forall (s : state.State S A) (sf : state.State S (A -> B)),
         state.Run (state.Apply s sf) s0
         = state.Run (state.FlatMap s (fun a => state.Map sf (fun fn => fn a))) s0)
  /\ (forall (w : writer.Writer W A) (wf : writer.Writer W (A -> B)),
         writer.Run (writer.Apply w wf)
         = writer.Run (writer.FlatMap w (fun a => writer.Map wf (fun fn => fn a)))).
Proof.
  split; [reflexivity |].
  split; [| split; [| split; [reflexivity | split]]].
  - intros sa sb. unfold state.Run. simpl.
    destruct (state.g sa s0) as [a s1]. simpl.
    destruct (state.g sb s1) as [b s2]. reflexivity.
  - intros wa wb. unfold writer.Run. simpl.
    destruct (writer.g wa tt) as [a logA]. simpl.
    destruct (writer.g wb tt) as [b logB]. reflexivity.
  - intros s sf. unfold state.Run. simpl.
    destruct (state.g s s0) as [a s1]. simpl.
    destruct (state.g sf s1) as [fn s2]. reflexivity.
  - intros w wf. unfold writer.Run. simpl. unfold writer.Run.
    destruct (writer.g w tt) as [a logA]. simpl.
    destruct (writer.g wf tt) as [fn logF]. reflexivity.
Qed.

End Zip_Apply_order.

(** ** State: [Get], [Put], [Modify], [Gets] *)

Section State_laws.
Import state.
Context {S A : Type}.

(** X23.  The laws of a state cell: what was put is what is got; getting the state
    and putting it back changes nothing; of two [Put]s the second wins;
    [Modify] is [Get] followed by [Put] of the transformed state, and two
    [Modify]s compose; [Gets] is [Map] over [Get]; none of the reads changes
    the state. *)
Theorem State_cell_laws (s0 : S) :
  (forall s : S, Run (FlatMap (Put s) (fun _ => Get)) s0 = (s, s))
  /\ Run (FlatMap Get (fun s => Put s)) s0 = (gofp.UnitValue, s0)
  /\ (forall s s' : S,
         Run (FlatMap (Put s) (fun _ => Put s')) s0 = Run (Put s') s0)
  /\ (forall f : S -> S,
         Run (Modify f) s0 = Run (FlatMap Get (fun s => Put (f s))) s0)
  /\ (forall f g : S -> S,
         Run (FlatMap (Modify f) (fun _ => Modify g)) s0
         = Run (Modify (fun s => g (f s))) s0)
  /\ (forall f : S -> A, Run (Gets f) s0 = Run (Map Get f) s0)
  /\ (forall f : S -> A, snd (Run (Gets f) s0) = s0 /\ snd (Run Get s0) = s0)
  /\ (forall (f : S -> S) (h : S -> A),
         Run (FlatMap (Modify f) (fun _ => Gets h)) s0 = (h (f s0), f s0)).
Proof. repeat split. Qed.

Lemma threadAll_app (l1 l2 : list (State S A)) :
  forall s0 : S,
    threadAll (l1 ++ l2) s0
    = (let (vs1, s1) := threadAll l1 s0 in
       let (vs2, s2) := threadAll l2 s1 in
       (vs1 ++ vs2, s2)).
Proof.
  induction l1 as [| s l1 IH]; intros s0; simpl.
  - destruct (threadAll l2 s0). reflexivity.
  - destruct (Run s s0) as [v s1]. rewrite IH.
    destruct (threadAll l1 s1) as [vs1 s2].
    destruct (threadAll l2 s2) as [vs2 s3]. reflexivity.
Qed.

Lemma Run_Zip {X Y U : Type} (sa : State S X) (sb : State S Y) (f : X -> Y -> U)
  (s0 : S) :
  Run (Zip sa sb f) s0
  = (let (a, s1) := Run sa s0 in
     let (b, s2) := Run sb s1 in
     (f a b, s2)).
Proof.
  unfold Run. simpl. destruct (g sa s0) as [a s1]. simpl.
  destruct (g sb s1) as [b s2]. reflexivity.
Qed.

Lemma Sequence_threadAll (states : list (State S A)) (s0 : S) :
  Run (Sequence states) s0 = threadAll states s0.
Proof.
  unfold Sequence. rewrite Sequence_loop. simpl.
  destruct (threadAll states s0). reflexivity.
Qed.

Lemma Run_Zip_lists (l1 l2 : list (State S A)) (s0 : S) :
  Run (Zip (Sequence l1) (Sequence l2) (@app A)) s0
  = (let (vs1, s1) := Run (Sequence l1) s0 in
     let (vs2, s2) := Run (Sequence l2) s1 in
     (vs1 ++ vs2, s2)).
Proof. apply (Run_Zip (Sequence l1) (Sequence l2) (@app A)). Qed.

Lemma Run_Zip_one (states : list (State S A)) (s : State S A) (s0 : S) :
  Run (Zip (Sequence states) s (fun vs a => vs ++ [a])) s0
  = (let (vs, s1) := Run (Sequence states) s0 in
     let (a, s2) := Run s s1 in
     (vs ++ [a], s2)).
Proof. apply (Run_Zip (Sequence states) s (fun vs a => vs ++ [a])). Qed.

(** X24.  [Sequence] of a concatenation runs the first part and then the second
    from the state the first left, and concatenates the values: it is [Zip]
    of the two [Sequence]s with [append].  [Sequence] of [Pure]s returns
    their values and leaves the state alone, and [Sequence] of one element
    is that element with its value in a one-element list. *)
Theorem Sequence_of_append (s0 : S) :
  (forall l1 l2 : list (State S A),
      Run (Sequence (l1 ++ l2)) s0
      = Run (Zip (Sequence l1) (Sequence l2) (@app A)) s0)
  /\ (forall vs : list A, Run (Sequence (map Pure vs)) s0 = (vs, s0))
  /\ (forall s : State S A,
         Run (Sequence [s]) s0 = Run (Map s (fun a => [a])) s0)
  /\ (forall (states : list (State S A)) (s : State S A),
         Run (Sequence (states ++ [s])) s0
         = Run (Zip (Sequence states) s (fun vs a => vs ++ [a])) s0).
Proof.
  split; [| split; [| split]].
  - intros l1 l2. rewrite Sequence_threadAll, threadAll_app.
    pose proof (@Run_Zip_lists l1 l2 s0) as Hzip. rewrite Hzip.
    rewrite Sequence_threadAll.
    destruct (threadAll l1 s0) as [vs1 s1].
    rewrite Sequence_threadAll. reflexivity.
  - intros vs. rewrite Sequence_threadAll. revert s0.
    induction vs as [| v vs IH]; intros s0; simpl; [reflexivity |].
    rewrite IH. reflexivity.
  - intros s. rewrite Sequence_threadAll. unfold Run. simpl. unfold Run.
    destruct (g s s0). reflexivity.
  - intros states s. rewrite Sequence_threadAll, threadAll_app.
    rewrite Run_Zip_one. rewrite Sequence_threadAll.
    destruct (threadAll states s0) as [vs1 s1]. simpl.
    destruct (Run s s1). reflexivity.
Qed.

End State_laws.

(** ** Writer: [Listen] and the monoid a Writer carries *)

Section Writer_Listen.
Import writer.
Context {W A B : Type}.

(** X25.  [Listen] leaves the output as it is and returns the original value
    together with that output; mapping the observation back to its value
    gives the original Writer's result.  After a [FlatMap] the log observed
    is the combined one. *)
Theorem Listen_observes_output (w : Writer W A) :
  snd (Run (Listen w)) = snd (Run w)
  /\ Value (fst (Run (Listen w))) = fst (Run w)
  /\ Log (fst (Run (Listen w))) = snd (Run w)
  /\ Run (Map (Listen w) (@Value A W)) = Run w
  /\ (forall f : A -> Writer W B,
         Log (fst (Run (Listen (FlatMap w f))))
         = Append (monoid w) (snd (Run w)) (snd (Run (f (fst (Run w))))))
  /\ (forall (out : W) (a : A) (m : Monoid W),
         Run (Listen (TellWithValue a out m)) = ({| Value := a; Log := out |}, out)).
Proof.
  unfold Run. simpl. unfold Run.
  destruct (g w tt) as [a log]. simpl.
  repeat split.
  intros f. destruct (g (f a) tt). reflexivity.
Qed.

(** X26.  Every combinator hands on the monoid of its first Writer operand, and
    the output of [FlatMap] is combined with that monoid whatever monoid the
    Writer returned by the continuation carries: two continuations whose
    Writers run to the same results give the same result. *)
Theorem Writer_keeps_first_monoid (w : Writer W A) :
  (forall f : A -> B, monoid (Map w f) = monoid w)
  /\ (forall f : A -> Writer W B, monoid (FlatMap w f) = monoid w)
  /\ (forall wf : Writer W (A -> B), monoid (Apply w wf) = monoid w)
  /\ (forall (wb : Writer W B) (f : A -> B -> A), monoid (Zip w wb f) = monoid w)
  /\ monoid (Listen w) = monoid w
  /\ (forall f f' : A -> Writer W B,
         (forall a, Run (f a) = Run (f' a)) ->
         Run (FlatMap w f) = Run (FlatMap w f'))
  /\ (forall (f : A -> Writer W B) (m' : Monoid W),
         Run (FlatMap w (fun a => {| g := g (f a); monoid := m' |}))
         = Run (FlatMap w f)).
Proof.
  repeat split.
  intros f f' Hsame. unfold Run in *. simpl.
  destruct (g w tt) as [a w1]. rewrite (Hsame a). reflexivity.
Qed.

End Writer_Listen.

(** Two continuations that differ only in the monoid they attach. *)
Lemma Writer_keeps_first_monoid_witness :
  let reversed : writer.Monoid (list string) :=
    {| writer.Empty := []; writer.Append := fun a b => b ++ a |} in
  let w := writer.TellWithValue 1%Z ["first"%string] (writer_test.SliceMonoid string) in
  writer.Run
    (writer.FlatMap w (fun x => writer.TellWithValue x ["second"%string] reversed))
  = writer.Run
      (writer.FlatMap w
         (fun x => writer.TellWithValue x ["second"%string]
                     (writer_test.SliceMonoid string))).
Proof.
  intros reversed w.
  apply (proj1 (proj2 (proj2 (proj2 (proj2 (proj2
           (@Writer_keeps_first_monoid (list string) Z Z w))))))).
  intros a. reflexivity.
Defined.

(** ** Option: the JSON methods *)

Section Option_JSON.
Import option.
Context {T : Type} `{Zero T}.
Variable json_Marshal : T -> string * error.
Variable json_Unmarshal : string -> T -> T * error.


End Option_JSON.


(** ** examples/validation *)

Section validateUser_spec.
Context {nil2 : Zero (string -> Z -> validation.User)}.
Context {nil1 : Zero (Z -> validation.User)}.
Context {nil3 : Zero (string -> string -> Z -> validation.User)}.

(** X28.  [validateUser] returns the user itself when the three fields are valid.
    Otherwise it returns a Left with one error for every invalid field and
    no other, in the order username, email, age: no failure hides a later
    one. *)
Theorem validateUser_accumulates (u : validation.User) :
  validation.validateUser u
  = match fieldErrors u with
    | [] => either.Right u
    | errs => either.Left errs
    end.
Proof.
  destruct u as [name email age].
  unfold validation.validateUser, fieldErrors, validation.validateUsername,
    validation.validateEmail, validation.validateAge, validation.appendErrors,
    either.EitherApplyMap.
  simpl.
  destruct (Nat.ltb (String.length name) 3);
    destruct (strings.Contains email "@");
    destruct (age <? 18)%Z; reflexivity.
Qed.

End validateUser_spec.

(** The user of the example's [main]: all three fields are invalid. *)
Example validateUser_of_main :
  let nil2 : Zero (string -> Z -> validation.User) := {| zero := fun _ _ => zero |} in
  let nil1 : Zero (Z -> validation.User) := {| zero := fun _ => zero |} in
  let nil3 : Zero (string -> string -> Z -> validation.User) :=
    {| zero := fun _ _ _ => zero |} in
  validation.validateUser (validation.mkUser "ab" "invalid-email" 15)
  = either.Left
      [ validation.mkValidationError "username" "must be at least 3 characters";
        validation.mkValidationError "email" "must contain @";
        validation.mkValidationError "age" "must be at least 18" ].
Proof. reflexivity. Qed.
